(** * Post-build assets processor: a shallow embedding in Rocq

    This development models [post-build-assets-processor-plugin.ts]:
    the URL rewriting rule [updateUrl], the output mapping builder
    [createAssetMappings], the missing-asset reconciler
    [processMissingAssets], the manifest updater [updateManifestFile],
    the HTML rewriting pass [updateHtmlFiles] and the source scanner
    [findAssetsInString]. *)

From Stdlib Require Import String Ascii ZArith List Lia.
From stdpp Require Import base gmap strings list.

Open Scope string_scope.
Set Warnings "-register-all".

(* ------------------------------------------------------------------ *)
(** ** String primitives of the JavaScript runtime *)

(** [s.startsWith(p)] *)
Definition startsWith (s p : string) : bool := String.prefix p s.

(** [s.endsWith(p)] *)
Definition endsWith (s p : string) : bool :=
  let n := String.length s in
  let k := String.length p in
  if Nat.leb k n then String.eqb (substring (n - k) k s) p else false.

(** [s.slice(n)] for [0 <= n] *)
Fixpoint slice (s : string) (n : nat) : string :=
  match n, s with
  | O, _ => s
  | S n', String _ s' => slice s' n'
  | S _, EmptyString => EmptyString
  end.

(** [s.replace(/^\/+/, '')] *)
Fixpoint stripLeadingSlashes (s : string) : string :=
  match s with
  | String c s' => if Ascii.eqb c "/"%char then stripLeadingSlashes s' else s
  | EmptyString => EmptyString
  end.

(** ASCII [toLowerCase] *)
Definition lower_ascii (c : ascii) : ascii :=
  let n := nat_of_ascii c in
  if (Nat.leb 65 n && Nat.leb n 90)%bool then ascii_of_nat (n + 32) else c.

Fixpoint toLowerCase (s : string) : string :=
  match s with
  | String c s' => String (lower_ascii c) (toLowerCase s')
  | EmptyString => EmptyString
  end.

(** [s.split(sep)] for a one-character separator *)
Fixpoint split_char (sep : ascii) (s : string) : list string :=
  match s with
  | EmptyString => [""]
  | String c s' =>
      if Ascii.eqb c sep then "" :: split_char sep s'
      else match split_char sep s' with
           | w :: ws => String c w :: ws
           | [] => [String c ""]
           end
  end.

(** [parts.join(sep)] *)
Fixpoint join (sep : string) (l : list string) : string :=
  match l with
  | [] => ""
  | [x] => x
  | x :: xs => x ++ sep ++ join sep xs
  end.

(* ------------------------------------------------------------------ *)
(** ** Asset mappings as a plain JavaScript object

    [AssetMappings] is an object literal [{}]; its own properties are a
    finite map.  A read [assetMappings[key]] first looks at the own
    properties and then at the members inherited from [Object.prototype],
    which are truthy and convert to the strings below. *)

Definition AssetMappings := gmap string string.

Inductive jsval : Type :=
  | JsUndefined
  | JsString (s : string)
  | JsInherited (repr : string).

Definition object_prototype_member (k : string) : option string :=
  if String.eqb k "constructor" then Some "function Object() { [native code] }"
  else if String.eqb k "__proto__" then Some "[object Object]"
  else if existsb (String.eqb k)
      ["__defineGetter__"; "__defineSetter__"; "hasOwnProperty";
       "__lookupGetter__"; "__lookupSetter__"; "isPrototypeOf";
       "propertyIsEnumerable"; "toString"; "valueOf"; "toLocaleString"]
  then Some ("function " ++ k ++ "() { [native code] }")
  else None.

Definition js_get (m : AssetMappings) (k : string) : jsval :=
  match m !! k with
  | Some v => JsString v
  | None =>
      match object_prototype_member k with
      | Some r => JsInherited r
      | None => JsUndefined
      end
  end.

Definition truthy (v : jsval) : bool :=
  match v with
  | JsUndefined => false
  | JsString s => negb (String.eqb s "")
  | JsInherited _ => true
  end.

(** Template-literal conversion [`${v}`] *)
Definition js_to_string (v : jsval) : string :=
  match v with
  | JsUndefined => "undefined"
  | JsString s => s
  | JsInherited r => r
  end.

(* ------------------------------------------------------------------ *)
(** ** Configuration *)

Record AssetConfig := {
  srcDir : string;
  outputDir : string;
  assetsSubdir : string;
  siteBaseUrl : string
}.

(** The configuration of [vite.config.ts]. *)
Definition repoAssetConfig : AssetConfig := {|
  srcDir := "src";
  outputDir := "dist";
  assetsSubdir := "assets";
  siteBaseUrl := "https://test.com"
|}.

(* ------------------------------------------------------------------ *)
(** ** [updateUrl] *)

(** The lookup key derived from a URL. *)
Definition urlAssetPath (cfg : AssetConfig) (url : string) : string :=
  let isAbsolute := startsWith url (siteBaseUrl cfg) in
  let assetPath :=
    if isAbsolute then slice url (String.length (siteBaseUrl cfg)) else url in
  stripLeadingSlashes assetPath.

Definition updateUrl (url : string) (cfg : AssetConfig) (m : AssetMappings) : string :=
  let isAbsolute := startsWith url (siteBaseUrl cfg) in
  let assetPath := urlAssetPath cfg url in
  let hv := js_get m assetPath in
  if truthy hv then
    let hashedPath := js_to_string hv in
    if isAbsolute then siteBaseUrl cfg ++ "/" ++ hashedPath
    else "/" ++ hashedPath
  else url.


(* ------------------------------------------------------------------ *)
(** ** JSON values

    The values [JSON.parse] returns.  A number is kept as the string
    [JSON.stringify] prints for it; an object is the list of its
    properties in property order. *)

Inductive json : Type :=
  | JNull
  | JBool (b : bool)
  | JNum (repr : string)
  | JStr (s : string)
  | JArr (items : list json)
  | JObj (props : list (string * json)).

Definition nl : string := String (ascii_of_nat 10) "".

Definition escape_char (c : ascii) : string :=
  let n := nat_of_ascii c in
  if Nat.eqb n 34 then String "\"%char (String c "")
  else if Nat.eqb n 92 then String "\"%char (String c "")
  else if Nat.eqb n 10 then "\n"
  else if Nat.eqb n 9 then "\t"
  else if Nat.eqb n 13 then "\r"
  else String c "".

Fixpoint escape_string (s : string) : string :=
  match s with
  | EmptyString => ""
  | String c s' => escape_char c ++ escape_string s'
  end.

Definition json_quote (s : string) : string :=
  String (ascii_of_nat 34) (escape_string s ++ String (ascii_of_nat 34) "").

(** [JSON.stringify(v)] *)
Fixpoint stringify (j : json) : string :=
  match j with
  | JNull => "null"
  | JBool b => if b then "true" else "false"
  | JNum r => r
  | JStr s => json_quote s
  | JArr l => "[" ++ join "," (List.map stringify l) ++ "]"
  | JObj kvs =>
      "{" ++ join "," (List.map (fun '(k, v) => json_quote k ++ ":" ++ stringify v) kvs)
      ++ "}"
  end.

(** [JSON.stringify(v, null, 2)] at indentation [ind] *)
Fixpoint stringify_pretty (ind : string) (j : json) : string :=
  let ind' := ind ++ "  " in
  match j with
  | JArr [] => "[]"
  | JArr l =>
      "[" ++ nl ++ ind'
      ++ join ("," ++ nl ++ ind') (List.map (stringify_pretty ind') l)
      ++ nl ++ ind ++ "]"
  | JObj [] => "{}"
  | JObj kvs =>
      "{" ++ nl ++ ind'
      ++ join ("," ++ nl ++ ind')
           (List.map (fun '(k, v) => json_quote k ++ ": " ++ stringify_pretty ind' v) kvs)
      ++ nl ++ ind ++ "}"
  | JNull => "null"
  | JBool b => if b then "true" else "false"
  | JNum r => r
  | JStr s => json_quote s
  end.

Definition JSON_INDENT_SPACES : nat := 2.

Definition stringify_indented (j : json) : string := stringify_pretty "" j.

(** A JSON text reader, used for the concrete documents below.  It reads
    the JSON grammar with integer numbers and the one-letter escapes of
    quote, backslash, slash, n, t and r; the rewriting functions take the parser as a parameter, so the
    general statements hold for [JSON.parse] itself. *)

Definition is_ws (c : ascii) : bool :=
  let n := nat_of_ascii c in
  (Nat.eqb n 32 || Nat.eqb n 9 || Nat.eqb n 10 || Nat.eqb n 13)%bool.

Fixpoint skip_ws (s : string) : string :=
  match s with
  | String c s' => if is_ws c then skip_ws s' else s
  | EmptyString => EmptyString
  end.

Definition is_digit (c : ascii) : bool :=
  let n := nat_of_ascii c in (Nat.leb 48 n && Nat.leb n 57)%bool.

Definition unescape (c : ascii) : option ascii :=
  let n := nat_of_ascii c in
  if (Nat.eqb n 34 || Nat.eqb n 92 || Nat.eqb n 47)%bool then Some c
  else if Nat.eqb n 110 then Some (ascii_of_nat 10)
  else if Nat.eqb n 116 then Some (ascii_of_nat 9)
  else if Nat.eqb n 114 then Some (ascii_of_nat 13)
  else None.

Fixpoint read_string_body (s : string) : option (string * string) :=
  match s with
  | EmptyString => None
  | String c s' =>
      let n := nat_of_ascii c in
      if Nat.eqb n 34 then Some ("", s')
      else if Nat.eqb n 92 then
        match s' with
        | String e s'' =>
            match unescape e, read_string_body s'' with
            | Some ch, Some (body, rest) => Some (String ch body, rest)
            | _, _ => None
            end
        | EmptyString => None
        end
      else if Nat.ltb n 32 then None
      else match read_string_body s' with
           | Some (body, rest) => Some (String c body, rest)
           | None => None
           end
  end.

Fixpoint take_digits (s : string) : string * string :=
  match s with
  | String c s' =>
      if is_digit c then let '(d, r) := take_digits s' in (String c d, r) else ("", s)
  | EmptyString => ("", "")
  end.

Definition read_number (s : string) : option (json * string) :=
  let '(neg, s1) :=
    match s with
    | String c s' => if Ascii.eqb c "-"%char then (true, s') else (false, s)
    | EmptyString => (false, s)
    end in
  let '(d, rest) := take_digits s1 in
  let leading_zero :=
    match d with String "0"%char (String _ _) => true | _ => false end in
  let frac_or_exp :=
    match rest with
    | String c _ => (Ascii.eqb c "."%char || Ascii.eqb c "e"%char || Ascii.eqb c "E"%char)%bool
    | EmptyString => false
    end in
  if (String.eqb d "" || leading_zero || frac_or_exp)%bool then None
  else Some (JNum (if (neg && negb (String.eqb d "0"))%bool then "-" ++ d else d), rest).

Fixpoint read_value (fuel : nat) (s : string) : option (json * string) :=
  match fuel with
  | O => None
  | S f =>
      let s := skip_ws s in
      if String.prefix "null" s then Some (JNull, slice s 4)
      else if String.prefix "true" s then Some (JBool true, slice s 4)
      else if String.prefix "false" s then Some (JBool false, slice s 5)
      else match s with
      | String c r =>
          let n := nat_of_ascii c in
          if Nat.eqb n 34 then
            match read_string_body r with
            | Some (body, rest) => Some (JStr body, rest)
            | None => None
            end
          else if Nat.eqb n 91 then
            let r := skip_ws r in
            if String.prefix "]" r then Some (JArr [], slice r 1)
            else match read_items f r with
                 | Some (items, rest) => Some (JArr items, rest)
                 | None => None
                 end
          else if Nat.eqb n 123 then
            let r := skip_ws r in
            if String.prefix "}" r then Some (JObj [], slice r 1)
            else match read_members f r with
                 | Some (props, rest) => Some (JObj props, rest)
                 | None => None
                 end
          else if (Nat.eqb n 45 || is_digit c)%bool then read_number s
          else None
      | EmptyString => None
      end
  end
with read_items (fuel : nat) (s : string) : option (list json * string) :=
  match fuel with
  | O => None
  | S f =>
      match read_value f s with
      | Some (v, r) =>
          let r := skip_ws r in
          if String.prefix "," r then
            match read_items f (slice r 1) with
            | Some (vs, rest) => Some (v :: vs, rest)
            | None => None
            end
          else if String.prefix "]" r then Some ([v], slice r 1)
          else None
      | None => None
      end
  end
with read_members (fuel : nat) (s : string) : option (list (string * json) * string) :=
  match fuel with
  | O => None
  | S f =>
      match skip_ws s with
      | String c r =>
          if Nat.eqb (nat_of_ascii c) 34 then
            match read_string_body r with
            | Some (k, r1) =>
                let r1 := skip_ws r1 in
                if String.prefix ":" r1 then
                  match read_value f (slice r1 1) with
                  | Some (v, r2) =>
                      let r2 := skip_ws r2 in
                      if String.prefix "," r2 then
                        match read_members f (slice r2 1) with
                        | Some (kvs, rest) => Some ((k, v) :: kvs, rest)
                        | None => None
                        end
                      else if String.prefix "}" r2 then Some ([(k, v)], slice r2 1)
                      else None
                  | None => None
                  end
                else None
            | None => None
            end
          else None
      | EmptyString => None
      end
  end.

(** [JSON.parse(text)]: [None] where it throws. *)
Definition json_parse (s : string) : option json :=
  match read_value (2 * String.length s + 2) s with
  | Some (v, rest) => if String.eqb (skip_ws rest) "" then Some v else None
  | None => None
  end.

(* ------------------------------------------------------------------ *)
(** ** Property access on parsed JSON *)

(** [obj[k]] on an object's own properties *)
Fixpoint prop_get (kvs : list (string * json)) (k : string) : option json :=
  match kvs with
  | [] => None
  | (k', v) :: rest => if String.eqb k k' then Some v else prop_get rest k
  end.

(** [obj[k] = v]: replaces an existing property in place, or appends *)
Fixpoint prop_set (kvs : list (string * json)) (k : string) (v : json)
  : list (string * json) :=
  match kvs with
  | [] => [(k, v)]
  | (k', v') :: rest =>
      if String.eqb k k' then (k', v) :: rest else (k', v') :: prop_set rest k v
  end.

(** [value.k] on any JSON value: [None] when it throws (on [null]),
    [Some None] when it is [undefined]. *)
Definition get_member (v : json) (k : string) : option (option json) :=
  match v with
  | JNull => None
  | JObj kvs => Some (prop_get kvs k)
  | _ => Some None
  end.

Definition json_truthy (v : json) : bool :=
  match v with
  | JNull => false
  | JBool b => b
  | JNum r => negb (String.eqb r "0")
  | JStr s => negb (String.eqb s "")
  | JArr _ | JObj _ => true
  end.

Fixpoint nat_to_decimal_aux (fuel n : nat) (acc : string) : string :=
  match fuel with
  | O => acc
  | S f =>
      let acc' := String (ascii_of_nat (48 + n mod 10)) acc in
      if Nat.ltb n 10 then acc' else nat_to_decimal_aux f (n / 10) acc'
  end.

Definition nat_to_decimal (n : nat) : string := nat_to_decimal_aux (S n) n "".

Fixpoint indexed_props (i : nat) (l : list json) : list (string * json) :=
  match l with
  | [] => []
  | x :: xs => (nat_to_decimal i, x) :: indexed_props (S i) xs
  end.

Fixpoint string_chars (s : string) : list json :=
  match s with
  | EmptyString => []
  | String c s' => JStr (String c "") :: string_chars s'
  end.

(** Object spread [{ ...v }] *)
Definition spread (v : json) : list (string * json) :=
  match v with
  | JObj kvs => kvs
  | JArr l => indexed_props 0 l
  | JStr s => indexed_props 0 (string_chars s)
  | _ => []
  end.

(* ------------------------------------------------------------------ *)
(** ** [fixMimeType] *)

Definition mime_top_types : list string := ["image"; "audio"; "video"; "application"].

(** Matches [(image|audio|video|application)\/] at the start of [s]. *)
Definition match_mime_top (s : string) : option (string * string) :=
  match List.find (fun t => String.prefix (t ++ "/") s) mime_top_types with
  | Some t => Some (t, slice s (S (String.length t)))
  | None => None
  end.

(** [mimeType.replace(/^(image|audio|video|application)\/(image|audio|video|application)\//, '$1/')] *)
Definition fixMimeType (mimeType : string) : string :=
  if String.eqb mimeType "" then mimeType
  else match match_mime_top mimeType with
       | Some (t1, r1) =>
           match match_mime_top r1 with
           | Some (_, r2) => t1 ++ "/" ++ r2
           | None => mimeType
           end
       | None => mimeType
       end.

(* ------------------------------------------------------------------ *)
(** ** The manifest updater *)

Section Rewriter.

(** [JSON.parse], [None] where it throws. *)
Variable JSON_parse : string -> option json.
Variable assetConfig : AssetConfig.
Variable assetMappings : AssetMappings.

Definition update_string (s : string) : bool * json :=
  let s' := updateUrl s assetConfig assetMappings in
  (negb (String.eqb s' s), JStr s').

(** [processManifestUrls]: the changed flag and the value after the
    in-place updates.  An element of an array is updated with
    [updateUrl] when it is a string and walked otherwise; a property is
    handled the same way, except that a string under the key [icons] is
    left alone. *)
Fixpoint processManifestUrls (obj : json) : bool * json :=
  match obj with
  | JObj kvs =>
      let r := List.map (fun '(k, v) =>
        if String.eqb k "icons" then
          match v with
          | JStr _ => (false, (k, v))
          | _ => let '(c, v') := processManifestUrls v in (c, (k, v'))
          end
        else
          match v with
          | JStr s => let '(c, v') := update_string s in (c, (k, v'))
          | _ => let '(c, v') := processManifestUrls v in (c, (k, v'))
          end) kvs in
      (existsb fst r, JObj (List.map snd r))
  | JArr items =>
      let r := List.map (fun v =>
        match v with
        | JStr s => update_string s
        | _ => processManifestUrls v
        end) items in
      (existsb fst r, JArr (List.map snd r))
  | _ => (false, obj)
  end.

(** The callback of [manifest.icons.map]: the new icon and whether it
    changed; [None] where it throws. *)
Definition process_icon (icon : json) : option (json * bool) :=
  let newIcon := spread icon in
  match get_member icon "src" with
  | None => None
  | Some src =>
      let src_step :=
        match src with
        | Some v =>
            if json_truthy v then
              match v with
              | JStr s =>
                  let s' := updateUrl s assetConfig assetMappings in
                  Some (prop_set newIcon "src" (JStr s'), negb (String.eqb s' s))
              | _ => None
              end
            else Some (newIcon, false)
        | None => Some (newIcon, false)
        end in
      match src_step with
      | None => None
      | Some (newIcon1, upd1) =>
          match get_member icon "type" with
          | None => None
          | Some (Some v) =>
              if json_truthy v then
                match v with
                | JStr t =>
                    let fixedType := fixMimeType t in
                    if negb (String.eqb fixedType t)
                    then Some (JObj (prop_set newIcon1 "type" (JStr fixedType)), true)
                    else Some (JObj newIcon1, upd1)
                | _ => None
                end
              else Some (JObj newIcon1, upd1)
          | Some None => Some (JObj newIcon1, upd1)
          end
      end
  end.

Fixpoint process_icons (icons : list json) : option (list json * bool) :=
  match icons with
  | [] => Some ([], false)
  | i :: is =>
      match process_icon i, process_icons is with
      | Some (i', u), Some (is', us) => Some (i' :: is', (u || us)%bool)
      | _, _ => None
      end
  end.

(** The icons pass of [updateManifestFile]: the manifest after it and the
    [updated] flag; [None] where it throws. *)
Definition manifest_icons_pass (manifest : json) : option (json * bool) :=
  match manifest with
  | JNull => None
  | JObj kvs =>
      match prop_get kvs "icons" with
      | Some (JArr icons) =>
          match process_icons icons with
          | Some (icons', upd) => Some (JObj (prop_set kvs "icons" (JArr icons')), upd)
          | None => None
          end
      | _ => Some (manifest, false)
      end
  | _ => Some (manifest, false)
  end.

(** [updateManifestFile] on a manifest's text: whether it was written,
    and the file's text afterwards.  A text that does not parse, or a
    manifest whose processing throws, is caught: nothing is written. *)
Definition updateManifestFile (content : string) : bool * string :=
  match JSON_parse content with
  | None => (false, content)
  | Some manifest =>
      match manifest_icons_pass manifest with
      | None => (false, content)
      | Some (manifest1, updated) =>
          let '(changed, manifest2) := processManifestUrls manifest1 in
          if (changed || updated)%bool then (true, stringify_indented manifest2)
          else (false, content)
      end
  end.

(* ------------------------------------------------------------------ *)
(** ** The JSON-LD pass *)

(** [s.includes(sub)] *)
Fixpoint includes (s sub : string) : bool :=
  if String.prefix sub s then true
  else match s with
       | EmptyString => false
       | String _ s' => includes s' sub
       end.

(** Keys whose string value is rewritten. *)
Definition image_string_key (key : string) : bool :=
  (String.eqb key "image" || String.eqb key "logo" || String.eqb key "thumbnail"
   || String.eqb key "url" || includes key "Image" || includes key "image")%bool.

(** Keys whose [{url: string}] object value has its [url] rewritten. *)
Definition image_object_key (key : string) : bool :=
  (String.eqb key "image" || String.eqb key "logo"
   || includes key "Image" || includes key "image")%bool.

(** [isImageObject]: ['url' in v && typeof v.url === 'string'] *)
Definition isImageObject (kvs : list (string * json)) : bool :=
  match prop_get kvs "url" with Some (JStr _) => true | _ => false end.

Definition looks_like_url (item : string) : bool :=
  (includes item "http" || startsWith item "/")%bool.

(** [processJsonValues]: the value after the in-place updates.  When
    [pre] is set, the object's [url] string was first replaced by
    [updateUrl(url)] by the caller (the image-object case), before the
    walk over its entries. *)
Fixpoint processJsonValues (pre : bool) (obj : json) : json :=
  let entry (key : string) (value : json) : json :=
    match value with
    | JStr s =>
        let s0 := if (pre && String.eqb key "url")%bool
                  then updateUrl s assetConfig assetMappings else s in
        if image_string_key key then JStr (updateUrl s0 assetConfig assetMappings)
        else JStr s0
    | JObj kvs' =>
        processJsonValues (image_object_key key && isImageObject kvs')%bool value
    | JArr items =>
        JArr (List.map (fun item =>
          match item with
          | JObj _ | JArr _ => processJsonValues false item
          | JStr s =>
              if looks_like_url s then JStr (updateUrl s assetConfig assetMappings)
              else item
          | _ => item
          end) items)
    | _ => value
    end in
  match obj with
  | JObj kvs => JObj (List.map (fun '(k, v) => (k, entry k v)) kvs)
  | JArr items =>
      JArr ((fix go (i : nat) (l : list json) : list json :=
               match l with
               | [] => []
               | x :: xs => entry (nat_to_decimal i) x :: go (S i) xs
               end) 0 items)
  | _ => obj
  end.

(** One [application/ld+json] script body: whether the file is marked
    changed, and the body afterwards. *)
Definition update_jsonld_body (scriptContent : string) : bool * string :=
  match JSON_parse scriptContent with
  | Some jsonContent =>
      let initialJson := stringify jsonContent in
      let updatedJson := stringify_indented (processJsonValues false jsonContent) in
      if negb (String.eqb initialJson updatedJson) then (true, updatedJson)
      else (false, scriptContent)
  | None =>
      let updatedContent := updateUrl scriptContent assetConfig assetMappings in
      if negb (String.eqb updatedContent scriptContent) then (true, updatedContent)
      else (false, scriptContent)
  end.

(* ------------------------------------------------------------------ *)
(** ** HTML documents

    A document loaded by cheerio is modelled as its elements in document
    order: tag name, attributes in order, and the text content (used for
    [script] bodies).  Tag and attribute names are as the HTML parser
    gives them, in lower case. *)

Record element := mkElement {
  tagName : string;
  attrs : list (string * string);
  body : string
}.

(** [$el.attr(name)] *)
Fixpoint attr_get (l : list (string * string)) (k : string) : option string :=
  match l with
  | [] => None
  | (k', v) :: rest => if String.eqb k k' then Some v else attr_get rest k
  end.

(** [$el.attr(name, value)] *)
Fixpoint attr_set (l : list (string * string)) (k v : string) : list (string * string) :=
  match l with
  | [] => [(k, v)]
  | (k', v') :: rest =>
      if String.eqb k k' then (k', v) :: rest else (k', v') :: attr_set rest k v
  end.

(** The attributes whose values css-select compares case-insensitively
    in an HTML (not XML) document, for a selector [[name="value"]]
    without an [i] or [s] flag. *)
Definition case_insensitive_attributes : list string :=
  ["accept"; "accept-charset"; "align"; "alink"; "axis"; "bgcolor"; "charset";
   "checked"; "clear"; "codetype"; "color"; "compact"; "declare"; "defer"; "dir";
   "direction"; "disabled"; "enctype"; "face"; "frame"; "hreflang"; "http-equiv";
   "lang"; "language"; "link"; "media"; "method"; "multiple"; "nohref"; "noresize";
   "noshade"; "nowrap"; "readonly"; "rel"; "rev"; "rules"; "scope"; "scrolling";
   "selected"; "shape"; "target"; "text"; "type"; "valign"; "valuetype"; "vlink"].

(** The selector [[name="value"]]: [attr.toLowerCase() === value.toLowerCase()]
    for the attributes above, exact equality for the others. *)
Definition attr_is (e : element) (k v : string) : bool :=
  match attr_get (attrs e) k with
  | Some x =>
      if existsb (String.eqb k) case_insensitive_attributes
      then String.eqb (toLowerCase x) (toLowerCase v)
      else String.eqb x v
  | None => false
  end.

Definition set_attr (e : element) (k v : string) : element :=
  mkElement (tagName e) (attr_set (attrs e) k v) (body e).

(** [\s] on ASCII: tab, line feed, vertical tab, form feed, carriage
    return and space. *)
Definition is_js_space (c : ascii) : bool :=
  let n := nat_of_ascii c in ((Nat.leb 9 n && Nat.leb n 13) || Nat.eqb n 32)%bool.

Fixpoint trim_start (s : string) : string :=
  match s with
  | String c s' => if is_js_space c then trim_start s' else s
  | EmptyString => EmptyString
  end.

Definition trim (s : string) : string :=
  String.rev (trim_start (String.rev (trim_start s))).

(** [s.split(/\s+/)] *)
Fixpoint split_ws_aux (s : string) (cur : string) (in_sep : bool) : list string :=
  match s with
  | EmptyString => [String.rev cur]
  | String c s' =>
      if is_js_space c then
        if in_sep then split_ws_aux s' cur true
        else String.rev cur :: split_ws_aux s' "" true
      else split_ws_aux s' (String c cur) false
  end.

Definition split_ws (s : string) : list string := split_ws_aux s "" false.

(** [/\.(html|css|js|json)$/i] *)
Definition page_link_ext (value : string) : bool :=
  let v := toLowerCase value in
  (endsWith v ".html" || endsWith v ".css" || endsWith v ".js" || endsWith v ".json")%bool.

(** The [srcset] rewrite: [value.split(',')], each entry trimmed and split
    into [url] and [descriptor], joined back with [', ']. *)
Definition update_srcset (value : string) : string :=
  join ", " (List.map (fun srcset =>
    let parts := split_ws (trim srcset) in
    let url := List.hd "" parts in
    let descriptor := List.nth 1 parts "" in
    updateUrl url assetConfig assetMappings
      ++ (if String.eqb descriptor "" then "" else " " ++ descriptor))
    (split_char ","%char value)).

(** One attribute of the [[src],[href],[content]] loop. *)
Definition update_attribute (e : element) (attr : string) : bool * element :=
  let nodeName := toLowerCase (tagName e) in
  match attr_get (attrs e) attr with
  | Some value =>
      if String.eqb value "" then (false, e)
      else if (String.eqb attr "href" && String.eqb nodeName "a"
               && negb (page_link_ext value))%bool then (false, e)
      else if String.eqb attr "srcset" then
        let newSrcset := update_srcset value in
        if negb (String.eqb newSrcset value) then (true, set_attr e attr newSrcset)
        else (false, e)
      else
        let updatedValue := updateUrl value assetConfig assetMappings in
        if negb (String.eqb updatedValue value) then (true, set_attr e attr updatedValue)
        else (false, e)
  | None => (false, e)
  end.

Definition selected_by_src_href_content (e : element) : bool :=
  match attr_get (attrs e) "src", attr_get (attrs e) "href", attr_get (attrs e) "content" with
  | None, None, None => false
  | _, _, _ => true
  end.

Definition update_element_attributes (e : element) : bool * element :=
  if selected_by_src_href_content e then
    List.fold_left (fun '(c, e') attr =>
      let '(c', e'') := update_attribute e' attr in ((c || c')%bool, e''))
      ["src"; "href"; "content"; "srcset"] (false, e)
  else (false, e).

(** The [link[rel="manifest"]] step; [hashedManifest] is the output-root
    relative path of the first [manifest-*.json] file, if any. *)
Definition update_manifest_link (hashedManifest : option string) (e : element)
  : bool * element :=
  if (String.eqb (tagName e) "link"
      && attr_is e "rel" "manifest")%bool then
    match attr_get (attrs e) "href" with
    | Some href =>
        if (negb (String.eqb href "") && endsWith href "manifest.json")%bool then
          match hashedManifest with
          | Some rel => (true, set_attr e "href" ("/" ++ rel))
          | None => (false, e)
          end
        else (false, e)
    | None => (false, e)
    end
  else (false, e).

(** The [script[type="application/ld+json"]] step. *)
Definition update_jsonld_element (e : element) : bool * element :=
  if (String.eqb (tagName e) "script" && attr_is e "type" "application/ld+json")%bool then
    let '(c, body') := update_jsonld_body (body e) in
    (c, mkElement (tagName e) (attrs e) body')
  else (false, e).

(** The body of the [htmlFiles.forEach] callback: [fileChanged] and the
    document afterwards.  The file is written iff [fileChanged]. *)
Definition update_html_document (hashedManifest : option string) (doc : list element)
  : bool * list element :=
  let r1 := List.map (update_manifest_link hashedManifest) doc in
  let r2 := List.map update_element_attributes (List.map snd r1) in
  let r3 := List.map update_jsonld_element (List.map snd r2) in
  ((existsb fst r1 || existsb fst r2 || existsb fst r3)%bool, List.map snd r3).

End Rewriter.

(* ------------------------------------------------------------------ *)
(** ** The rewriting pass over an output tree *)

(** The files the pass reads: the matches of [**/manifest*.json] with
    their text, and the HTML files with their documents, by
    output-root-relative path. *)
Record OutputTree := mkOutputTree {
  manifest_files : list (string * string);
  html_files : list (string * list element)
}.

Fixpoint path_basename_aux (s : string) (cur : string) : string :=
  match s with
  | EmptyString => String.rev cur
  | String c s' =>
      if Ascii.eqb c "/"%char then path_basename_aux s' "" else path_basename_aux s' (String c cur)
  end.

(** [path.basename(p)] for a path without a trailing slash *)
Definition path_basename (p : string) : string := path_basename_aux p "".

(** The first match of [**/manifest-*.json]. *)
Definition hashed_manifest (t : OutputTree) : option string :=
  List.find (fun p => let b := path_basename p in
                      (startsWith b "manifest-" && endsWith b ".json")%bool)
    (List.map fst (manifest_files t)).

(** [updateHtmlFiles]: the paths written, in order, and the tree after. *)
Definition updateHtmlFiles (JSON_parse : string -> option json) (cfg : AssetConfig)
  (m : AssetMappings) (t : OutputTree) : list string * OutputTree :=
  let ms := List.map (fun '(p, c) =>
              let '(w, c') := updateManifestFile JSON_parse cfg m c in (p, w, c'))
              (manifest_files t) in
  let hm := hashed_manifest t in
  let hs := List.map (fun '(p, d) =>
              let '(w, d') := update_html_document JSON_parse cfg m hm d in (p, w, d'))
              (html_files t) in
  (app (List.map (fun '(p, _, _) => p) (List.filter (fun '(_, w, _) => w) ms))
       (List.map (fun '(p, _, _) => p) (List.filter (fun '(_, w, _) => w) hs)),
   mkOutputTree (List.map (fun '(p, _, c) => (p, c)) ms)
                (List.map (fun '(p, _, d) => (p, d)) hs)).

(* ------------------------------------------------------------------ *)
(** ** [node:path] on POSIX paths *)

Definition normalize_segments (isAbs : bool) (segs : list string) : list string :=
  List.rev (List.fold_left (fun stack seg =>
    if (String.eqb seg "" || String.eqb seg ".")%bool then stack
    else if String.eqb seg ".." then
      match stack with
      | top :: rest => if String.eqb top ".." then seg :: stack else rest
      | [] => if isAbs then [] else [seg]
      end
    else seg :: stack) segs []).

(** [path.normalize(p)] *)
Definition path_normalize (p : string) : string :=
  let isAbs := startsWith p "/" in
  let trailing := endsWith p "/" in
  let segs := normalize_segments isAbs (split_char "/"%char p) in
  let body := join "/" segs in
  let r := (if isAbs then "/" else "") ++ body in
  if String.eqb r "" then (if isAbs then "/" else ".")
  else match segs with
       | [] => r
       | _ => if trailing then r ++ "/" else r
       end.

(** [path.join(a, b)] *)
Definition path_join (a b : string) : string :=
  let joined := join "/" (List.filter (fun s => negb (String.eqb s "")) [a; b]) in
  if String.eqb joined "" then "." else path_normalize joined.

Fixpoint drop_common (xs ys : list string) : list string * list string :=
  match xs, ys with
  | x :: xs', y :: ys' => if String.eqb x y then drop_common xs' ys' else (xs, ys)
  | _, _ => (xs, ys)
  end.

(** [path.relative(from, to)] for absolute [from] and [to] *)
Definition path_relative (from to : string) : string :=
  let f := normalize_segments true (split_char "/"%char from) in
  let t := normalize_segments true (split_char "/"%char to) in
  let '(f', t') := drop_common f t in
  join "/" (app (List.map (fun _ => "..") f') t').

Fixpoint strip_trailing_slashes_rev (r : string) : string :=
  match r with
  | String c r' => if Ascii.eqb c "/"%char then strip_trailing_slashes_rev r' else r
  | EmptyString => EmptyString
  end.

(** Position of the last occurrence of [c] in [s]. *)
Fixpoint last_index_aux (c : ascii) (s : string) (i : nat) (acc : option nat) : option nat :=
  match s with
  | EmptyString => acc
  | String c' s' => last_index_aux c s' (S i) (if Ascii.eqb c c' then Some i else acc)
  end.

Definition last_index (c : ascii) (s : string) : option nat := last_index_aux c s 0 None.

Record ParsedPath := mkParsedPath { dir : string; name : string; ext : string }.

(** [path.parse(p)] *)
Definition path_parse (p0 : string) : ParsedPath :=
  let p :=
    if String.eqb (strip_trailing_slashes_rev (String.rev p0)) "" then p0
    else String.rev (strip_trailing_slashes_rev (String.rev p0)) in
  let base := path_basename p in
  let d :=
    match last_index "/"%char p with
    | None => ""
    | Some O => "/"
    | Some i => substring 0 i p
    end in
  let e :=
    if String.eqb base ".." then ""
    else match last_index "."%char base with
         | None | Some O => ""
         | Some i => slice base i
         end in
  mkParsedPath d (substring 0 (String.length base - String.length e) base) e.

(** [s.replace(/\\/g, '/')] *)
Fixpoint replace_backslashes (s : string) : string :=
  match s with
  | EmptyString => EmptyString
  | String c s' =>
      String (if Nat.eqb (nat_of_ascii c) 92 then "/"%char else c) (replace_backslashes s')
  end.

(* ------------------------------------------------------------------ *)
(** ** [createAssetMappings]

    [outputFiles] are the matches of
    [${assetsDir}/**/*.{jpg,jpeg,png,svg,gif,webp,avif,mp4,webm,css,js,json}]
    in enumeration order. *)

Definition create_mapping_step (baseDir : string) (mappings : AssetMappings)
  (outputFile : string) : AssetMappings :=
  let relativePath := replace_backslashes (path_relative baseDir outputFile) in
  let parsed := path_parse relativePath in
  let parts := split_char "-"%char (name parsed) in
  if Nat.ltb (List.length parts) 2 then mappings
  else
    let baseName := join "-" (List.removelast parts) in
    let directory :=
      if startsWith (dir parsed) "assets/" then slice (dir parsed) 7 else dir parsed in
    let fullKey :=
      if negb (String.eqb directory "") then directory ++ "/" ++ baseName ++ ext parsed
      else baseName ++ ext parsed in
    let mappings1 := <[fullKey := relativePath]> mappings in
    if String.eqb directory "" then <[baseName ++ ext parsed := relativePath]> mappings1
    else mappings1.

Definition createAssetMappings (baseDir : string) (outputFiles : list string) : AssetMappings :=
  List.fold_left (create_mapping_step baseDir) outputFiles ∅.

(* ------------------------------------------------------------------ *)
(** ** [processMissingAssets]

    The file system maps paths, as the code passes them, to contents; a
    write (directory creation and copy) to a path either succeeds or
    throws, as [fs_writable] says.  [sourceAssets] is the object returned
    by [findUnreferencedAssets]: original paths to source files, in
    insertion order. *)

Record FS := mkFS {
  fs_files : gmap string (list Byte.byte);
  fs_writable : string -> bool
}.

Fixpoint assoc (l : list (string * string)) (k : string) : option string :=
  match l with
  | [] => None
  | (k', v) :: rest => if String.eqb k k' then Some v else assoc rest k
  end.

Section Reconciler.

(** [crypto.createHash('md5').update(content).digest('hex')] *)
Variable md5_hex : list Byte.byte -> string.

Variable baseDir assetsDir : string.
Variable sourceAssets : list (string * string).

(** The keys of [sourceAssets] with no truthy [assetMappings[key]]. *)
Definition missing_assets (assetMappings : AssetMappings) : list string :=
  List.map fst (List.filter (fun '(k, _) => negb (truthy (js_get assetMappings k)))
                  sourceAssets).

(** The hashed target path of a missing asset with content [fileContent]. *)
Definition hashed_target (missingAsset : string) (fileContent : list Byte.byte) : string :=
  let hash := substring 0 8 (md5_hex fileContent) in
  let parsedAsset := path_parse missingAsset in
  let targetDir := path_join assetsDir (dir parsedAsset) in
  let hashedFilename := name parsedAsset ++ "-" ++ hash ++ ext parsedAsset in
  path_join targetDir hashedFilename.

(** One iteration of the [try] block; a throw leaves the state as it was. *)
Definition missing_asset_step (st : FS * AssetMappings) (missingAsset : string)
  : FS * AssetMappings :=
  let '(fs, updatedMappings) := st in
  match assoc sourceAssets missingAsset with
  | None => st
  | Some sourcePath =>
      match fs_files fs !! sourcePath with
      | None => st
      | Some fileContent =>
          let targetPath := hashed_target missingAsset fileContent in
          if fs_writable fs targetPath then
            let fs' := mkFS (<[targetPath := fileContent]> (fs_files fs)) (fs_writable fs) in
            let relativeTargetPath := replace_backslashes (path_relative baseDir targetPath) in
            (fs', <[missingAsset := relativeTargetPath]> updatedMappings)
          else st
      end
  end.

Definition processMissingAssets (fs : FS) (assetMappings : AssetMappings)
  : FS * AssetMappings :=
  List.fold_left missing_asset_step (missing_assets assetMappings) (fs, assetMappings).

End Reconciler.

(* ------------------------------------------------------------------ *)
(** ** [findAssetsInString]

    The source tree is the list of paths that exist under the working
    directory, as glob prints them ([src/images/logo.png]). *)

(** [p.split(/[?#]/)[0]] *)
Fixpoint before_query (s : string) : string :=
  match s with
  | EmptyString => EmptyString
  | String c s' =>
      if (Ascii.eqb c "?"%char || Ascii.eqb c "#"%char)%bool then EmptyString
      else String c (before_query s')
  end.

Definition media_extensions : list string :=
  ["jpg"; "jpeg"; "png"; "svg"; "gif"; "webp"; "avif"; "mp4"; "webm"; "ico"].

(** [/\.(jpg|jpeg|png|svg|gif|webp|avif|mp4|webm|ico)$/i.test(p)] *)
Definition has_media_extension (p : string) : bool :=
  existsb (fun e => endsWith (toLowerCase p) ("." ++ e)) media_extensions.

(** Matching of one path segment against a glob segment pattern: [*]
    matches any run of characters, [?] one character, anything else
    itself; a leading dot is only matched by a literal dot (glob's
    [dot: false]). *)
Fixpoint glob_segment_match_aux (pat s : string) : bool :=
  match pat with
  | EmptyString => String.eqb s ""
  | String c pat' =>
      if Ascii.eqb c "*"%char then
        (fix star (t : string) : bool :=
           (glob_segment_match_aux pat' t ||
            match t with String _ t' => star t' | EmptyString => false end)%bool) s
      else if Ascii.eqb c "?"%char then
        match s with String _ s' => glob_segment_match_aux pat' s' | EmptyString => false end
      else
        match s with
        | String c' s' => (Ascii.eqb c c' && glob_segment_match_aux pat' s')%bool
        | EmptyString => false
        end
  end.

Definition glob_segment_match (pat s : string) : bool :=
  if (startsWith s "." && negb (startsWith pat "."))%bool then false
  else glob_segment_match_aux pat s.

(** [glob.sync(`${srcDir}/**/${name}`)]: the paths below [srcDir],
    through directories not starting with a dot, whose last segment
    matches [name]. *)
Definition glob_recursive (tree : list string) (srcDir name : string) : list string :=
  List.filter (fun f =>
    startsWith f (srcDir ++ "/") &&
    match List.rev (split_char "/"%char (slice f (S (String.length srcDir)))) with
    | last :: dirs =>
        glob_segment_match name last &&
        forallb (fun d => negb (String.eqb d "") && negb (startsWith d ".")) dirs
    | [] => false
    end)%bool tree.

(** [fs.existsSync(p)] *)
Definition existsSync (tree : list string) (p : string) : bool :=
  existsb (String.eqb p) tree.

Definition AssetEntry : Type := string * string.

Definition findAssetsInString (str baseUrl srcDir : string) (tree : list string)
  : list AssetEntry :=
  let p := if startsWith str baseUrl then slice str (String.length baseUrl) else str in
  let p := stripLeadingSlashes (before_query p) in
  if negb (has_media_extension p) then []
  else
    let direct := path_join srcDir p in
    if existsSync tree direct then [(p, direct)]
    else
      let nm := path_basename p in
      match glob_recursive tree srcDir nm with
      | m :: _ => [(p, m)]
      | [] => []
      end.

(** The scanner as section 4.1 of the specification describes it: the
    fallback is the first path under [srcDir] whose basename equals the
    reference's basename. *)
Definition spec_findAssetsInString (str baseUrl srcDir : string) (tree : list string)
  : list AssetEntry :=
  let p := if startsWith str baseUrl then slice str (String.length baseUrl) else str in
  let p := stripLeadingSlashes (before_query p) in
  if negb (has_media_extension p) then []
  else
    let direct := path_join srcDir p in
    if existsSync tree direct then [(p, direct)]
    else
      match List.filter (fun f => startsWith f (srcDir ++ "/")
                                  && String.eqb (path_basename f) (path_basename p))%bool tree with
      | m :: _ => [(p, m)]
      | [] => []
      end.

(** The callback of the attribute loop of [update_element_attributes]. *)
Definition attribute_step (cfg : AssetConfig) (m : AssetMappings)
  : bool * element -> string -> bool * element :=
  fun '(c, e') attr =>
    let '(c', e'') := update_attribute cfg m e' attr in ((c || c')%bool, e'').

(** The selector [script[type="application/ld+json"]]. *)
Definition is_jsonld_script (e : element) : bool :=
  (String.eqb (tagName e) "script" && attr_is e "type" "application/ld+json")%bool.

(* ------------------------------------------------------------------ *)
(** ** [Object.entries] on a parsed JSON object

    An ordinary object lists its array-index keys ([0] to [2^32 - 2], in
    canonical decimal form) first, in ascending numeric order, and then
    its other string keys in insertion order. *)

Fixpoint decimal_value (s : string) (acc : N) : option N :=
  match s with
  | EmptyString => Some acc
  | String c s' =>
      if is_digit c then decimal_value s' (acc * 10 + N.of_nat (nat_of_ascii c - 48))%N
      else None
  end.

Definition array_index (k : string) : option N :=
  match k with
  | EmptyString => None
  | String c rest =>
      if (Ascii.eqb c "0"%char && negb (String.eqb rest ""))%bool then None
      else match decimal_value k 0 with
           | Some n => if N.ltb n 4294967295 then Some n else None
           | None => None
           end
  end.

Fixpoint insert_by_index {A : Type} (x : N * (string * A)) (l : list (N * (string * A)))
  : list (N * (string * A)) :=
  match l with
  | [] => [x]
  | y :: ys => if N.ltb (fst y) (fst x) then y :: insert_by_index x ys else x :: l
  end.

Definition object_entries {A : Type} (kvs : list (string * A)) : list (string * A) :=
  let indexed := List.fold_right (fun kv acc =>
                   match array_index (fst kv) with
                   | Some n => insert_by_index (n, kv) acc
                   | None => acc
                   end) [] kvs in
  app (List.map snd indexed)
      (List.filter (fun kv => match array_index (fst kv) with
                              | Some _ => false
                              | None => true
                              end) kvs).

(* ------------------------------------------------------------------ *)
(** ** [findAssetsInJson] and [findAssetsInJsonOrString] *)

(** [findAssetsInJson]: a value that is not an object or array gives no
    entry.  For each value of [Object.entries(obj)]: a string is scanned
    by [findAssetsInString]; an array has [findAssetsInJson] called on
    each of its items (so a string item gives nothing); an object is
    walked.  The entries of each value are computed from the value, then
    concatenated in the order of [Object.entries]. *)
Fixpoint findAssetsInJson (obj : json) (baseUrl srcDir : string) (tree : list string)
  : list AssetEntry :=
  match obj with
  | JObj kvs =>
      List.concat (List.map snd (object_entries (List.map (fun '(k, value) =>
        (k, match value with
            | JStr s => findAssetsInString s baseUrl srcDir tree
            | JArr items =>
                List.concat (List.map (fun item => findAssetsInJson item baseUrl srcDir tree) items)
            | JObj _ => findAssetsInJson value baseUrl srcDir tree
            | _ => []
            end)) kvs)))
  | JArr values =>
      List.concat (List.map (fun value =>
        match value with
        | JStr s => findAssetsInString s baseUrl srcDir tree
        | JArr items =>
            List.concat (List.map (fun item => findAssetsInJson item baseUrl srcDir tree) items)
        | JObj _ => findAssetsInJson value baseUrl srcDir tree
        | _ => []
        end) values)
  | _ => []
  end.

Definition findAssetsInJsonOrString (JSON_parse : string -> option json)
  (content baseUrl srcDir : string) (tree : list string) : list AssetEntry :=
  let trimmed := trim content in
  if (startsWith trimmed "{" || startsWith trimmed "[")%bool then
    match JSON_parse content with
    | Some j => findAssetsInJson j baseUrl srcDir tree
    | None => findAssetsInString content baseUrl srcDir tree
    end
  else findAssetsInString content baseUrl srcDir tree.

(* ------------------------------------------------------------------ *)
(** ** [findUnreferencedAssets]

    [htmlFiles] are the documents of the matches of [${srcDir}/**/*.html]
    in enumeration order; [manifest] is the text of
    [path.join(srcDir, 'manifest.json')] when that file exists. *)

(** The selector [[name^="prefix"]] *)
Definition attr_starts (e : element) (k p : string) : bool :=
  match attr_get (attrs e) k with Some x => startsWith x p | None => false end.

(** [meta[property^="og:image"], meta[name^="twitter:image"],
    meta[name^="twitter:player:stream"]] *)
Definition meta_image_selected (e : element) : bool :=
  (String.eqb (tagName e) "meta"
   && (attr_starts e "property" "og:image" || attr_starts e "name" "twitter:image"
       || attr_starts e "name" "twitter:player:stream"))%bool.

(** [const url = $(el).attr(a); if (url) findAssetsInString(url, ...)] *)
Definition attr_assets (e : element) (a baseUrl srcDir : string) (tree : list string)
  : list AssetEntry :=
  match attr_get (attrs e) a with
  | Some url => if String.eqb url "" then [] else findAssetsInString url baseUrl srcDir tree
  | None => []
  end.

(** One JSON-LD script body: parsed and walked, or scanned as a string
    when [JSON.parse] throws. *)
Definition jsonld_assets (JSON_parse : string -> option json)
  (scriptContent baseUrl srcDir : string) (tree : list string) : list AssetEntry :=
  if String.eqb scriptContent "" then []
  else match JSON_parse scriptContent with
       | Some j => findAssetsInJson j baseUrl srcDir tree
       | None => findAssetsInString scriptContent baseUrl srcDir tree
       end.

(** The entries one HTML document yields, in the order the callback
    meets them: meta tags, then images, then JSON-LD scripts. *)
Definition html_assets (JSON_parse : string -> option json) (baseUrl srcDir : string)
  (tree : list string) (doc : list element) : list AssetEntry :=
  app (List.concat (List.map (fun e =>
         if meta_image_selected e then attr_assets e "content" baseUrl srcDir tree else []) doc))
  (app (List.concat (List.map (fun e =>
          if String.eqb (tagName e) "img" then attr_assets e "src" baseUrl srcDir tree else []) doc))
       (List.concat (List.map (fun e =>
          if is_jsonld_script e then jsonld_assets JSON_parse (body e) baseUrl srcDir tree
          else []) doc))).

(** Every entry the scan meets, in order. *)
Definition unreferenced_candidates (JSON_parse : string -> option json)
  (srcDir baseUrl : string) (tree : list string) (htmlFiles : list (list element))
  (manifest : option string) : list AssetEntry :=
  app (List.concat (List.map (html_assets JSON_parse baseUrl srcDir tree) htmlFiles))
      (match manifest with
       | Some mf => findAssetsInJsonOrString JSON_parse mf baseUrl srcDir tree
       | None => []
       end).

(** [entries[k] = v] on a plain object, as an association list in
    insertion order: replaces in place, or appends. *)
Fixpoint assoc_set (l : list (string * string)) (k v : string) : list (string * string) :=
  match l with
  | [] => [(k, v)]
  | (k', v') :: rest =>
      if String.eqb k k' then (k', v) :: rest else (k', v') :: assoc_set rest k v
  end.

(** [if (!seen.has(a.originalPath)) { entries[a.originalPath] = a.fullPath;
    seen.add(a.originalPath) }] *)
Definition record_asset (st : list (string * string) * list string) (a : AssetEntry)
  : list (string * string) * list string :=
  let '(entries, seen) := st in
  let '(originalPath, fullPath) := a in
  if existsb (String.eqb originalPath) seen then st
  else (assoc_set entries originalPath fullPath, app seen [originalPath]).

Definition findUnreferencedAssets (JSON_parse : string -> option json)
  (srcDir baseUrl : string) (tree : list string) (htmlFiles : list (list element))
  (manifest : option string) : list (string * string) :=
  fst (List.fold_left record_asset
         (unreferenced_candidates JSON_parse srcDir baseUrl tree htmlFiles manifest) ([], [])).

(* ------------------------------------------------------------------ *)
(** ** Induction on JSON values through arrays and objects *)

Section JsonInd.

Variable P : json -> Prop.
Hypothesis HNull : P JNull.
Hypothesis HBool : forall b, P (JBool b).
Hypothesis HNum : forall r, P (JNum r).
Hypothesis HStr : forall s, P (JStr s).
Hypothesis HArr : forall l, List.Forall P l -> P (JArr l).
Hypothesis HObj : forall kvs, List.Forall (fun kv => P (snd kv)) kvs -> P (JObj kvs).

Fixpoint json_ind' (j : json) : P j :=
  match j with
  | JNull => HNull
  | JBool b => HBool b
  | JNum r => HNum r
  | JStr s => HStr s
  | JArr l =>
      HArr l ((fix go (l : list json) : List.Forall P l :=
                 match l with
                 | [] => List.Forall_nil _
                 | x :: xs => List.Forall_cons _ _ _ (json_ind' x) (go xs)
                 end) l)
  | JObj kvs =>
      HObj kvs ((fix go (kvs : list (string * json))
                   : List.Forall (fun kv => P (snd kv)) kvs :=
                   match kvs with
                   | [] => List.Forall_nil _
                   | kv :: xs =>
                       match kv as kv0 return List.Forall (fun kv => P (snd kv)) (kv0 :: xs) with
                       | (k, v) => List.Forall_cons _ (k, v) xs (json_ind' v) (go xs)
                       end
                   end) kvs)
  end.

End JsonInd.

(* ================================================================== *)
(** * Concrete inputs *)

(** A configuration whose base URL is the root path. *)
Definition rootBaseConfig : AssetConfig := {|
  srcDir := "src"; outputDir := "dist"; assetsSubdir := "assets"; siteBaseUrl := "/"
|}.

Definition logoMapping : AssetMappings :=
  <["images/logo.png" := "assets/images/logo-9f3ab21c.png"]> ∅.


(** An anchor to a PDF whose key is in the mapping. *)
Definition reportMapping : AssetMappings :=
  <["report.pdf" := "assets/report-5d41402a.pdf"]> ∅.

Definition anchorDoc : list element :=
  [mkElement "a" [("href", "/report.pdf")] ""].


(** The manifest icon of the icon-repair scenario, before and after. *)
Definition iconMapping : AssetMappings :=
  <["icons/icon.png" := "assets/icons/icon-ab12cd34.png"]> ∅.

Definition iconManifestBefore : json :=
  JObj [("icons", JArr [JObj [("src", JStr "/icons/icon.png"); ("type", JStr "image/image/png")]])].

Definition iconManifestAfter : json :=
  JObj [("icons", JArr [JObj [("src", JStr "/assets/icons/icon-ab12cd34.png");
                              ("type", JStr "image/png")]])].


(** An image whose [srcset] entries are separated by a bare comma. *)
Definition srcsetDoc : list element :=
  [mkElement "img" [("src", "a.png"); ("srcset", "a.png 1x,b.png 2x")] ""].

Definition emptyMapping : AssetMappings := ∅.


(** An output tree with one page holding a JSON-LD script, no manifest. *)
Definition jsonldTree : OutputTree :=
  mkOutputTree []
    [("index.html",
      [mkElement "script" [("type", "application/ld+json")]
         (stringify (JObj [("@type", JStr "Organization")]))])].

(** Two hashed outputs: one at the root of [assets], one below it. *)
Definition builderOutputs : list string :=
  ["/p/dist/client/assets/logo-abc12345.png";
   "/p/dist/client/assets/images/hero-9f3ab21c.png"].

(** A source tree with one image, and a reference whose name is a glob. *)
Definition scannerTree : list string := ["src/images/logo.png"].


(** A source image missing from the build output, and a file system
    holding it. *)
Definition reconcilerSources : list (string * string) :=
  [("images/photo.png", "src/images/photo.png")].

Definition reconcilerFS : FS :=
  mkFS (<["src/images/photo.png" := [Byte.x89; Byte.x50; Byte.x4e; Byte.x47]]> ∅)
       (fun _ => true).

(** A digest function standing in for MD5 on the example. *)
Definition fixed_md5_hex (_ : list Byte.byte) : string := "5d41402abc4b2a76b9719d911017c592".


(** Source documents and a source manifest for the scanner. *)
Definition scanDoc : list element :=
  [mkElement "meta" [("property", "og:image"); ("content", "https://test.com/images/logo.png")] "";
   mkElement "img" [("src", "/images/logo.png?v=2")] ""].

Definition scanManifest : json :=
  JObj [("icons", JArr [JObj [("src", JStr "/images/logo.png")]])].

Definition photoDoc : list element := [mkElement "img" [("src", "/images/photo.png")] ""].

Definition photoTree : list string := ["src/images/photo.png"].


(** * Properties *)

(** ** String lemmas *)

Lemma prefix_app (a b : string) : String.prefix a (a ++ b) = true.
Proof.
  induction a as [|c a IH]; simpl; [destruct b; reflexivity|].
  destruct (ascii_dec c c) as [_|n]; [exact IH|contradiction].
Qed.

Lemma string_app_assoc (a b c : string) : (a ++ b) ++ c = a ++ (b ++ c).
Proof. induction a as [|x a IH]; [reflexivity|exact (f_equal (String x) IH)]. Qed.

Lemma string_length_app (a b : string) :
  String.length (a ++ b) = String.length a + String.length b.
Proof. induction a as [|x a IH]; [reflexivity|exact (f_equal S IH)]. Qed.

Lemma slice_app (a b : string) : slice (a ++ b) (String.length a) = b.
Proof. induction a as [|c a IH]; simpl; [destruct b|]; auto. Qed.

Lemma strip_slash_once (k : string) :
  startsWith k "/" = false -> stripLeadingSlashes ("/" ++ k) = k.
Proof.
  intros H. change ("/" ++ k) with (String "/"%char k).
  cbn [stripLeadingSlashes]. rewrite Ascii.eqb_refl.
  destruct k as [|c k']; [reflexivity|].
  cbn [stripLeadingSlashes].
  destruct (Ascii.eqb c "/"%char) eqn:E; [|reflexivity].
  apply Ascii.eqb_eq in E. subst c.
  unfold startsWith in H. change (String "/"%char k') with ("/" ++ k') in H.
  rewrite prefix_app in H. discriminate.
Qed.

Lemma truthy_own (m : AssetMappings) (k v : string) :
  m !! k = Some v -> v <> "" -> truthy (js_get m k) = true /\ js_to_string (js_get m k) = v.
Proof.
  intros Hk Hv. unfold js_get. rewrite Hk. simpl. split; [|reflexivity].
  destruct (String.eqb v "") eqn:E; [apply String.eqb_eq in E; contradiction|reflexivity].
Qed.

Lemma updateUrl_relative (cfg : AssetConfig) (m : AssetMappings) (url v : string) :
  startsWith url (siteBaseUrl cfg) = false ->
  m !! stripLeadingSlashes url = Some v -> v <> "" ->
  updateUrl url cfg m = "/" ++ v.
Proof.
  intros Habs Hk Hv. unfold updateUrl, urlAssetPath. rewrite Habs.
  destruct (truthy_own m _ v Hk Hv) as [T S]. rewrite T, S. reflexivity.
Qed.

(** ** [updateUrl] *)

(** C1 (counterexample): with [siteBaseUrl = "/"] the key [images/logo.png]
    has no leading slash and does not start with the base URL, yet its
    site-relative form ["/images/logo.png"] is taken as absolute and comes
    back as ["//assets/images/logo-9f3ab21c.png"], not
    ["/assets/images/logo-9f3ab21c.png"]. *)
Lemma C1_root_base_counterexample :
  logoMapping !! "images/logo.png" = Some "assets/images/logo-9f3ab21c.png" /\
  startsWith "images/logo.png" "/" = false /\
  startsWith "images/logo.png" (siteBaseUrl rootBaseConfig) = false /\
  updateUrl ("/" ++ "images/logo.png") rootBaseConfig logoMapping
    = "//assets/images/logo-9f3ab21c.png" /\
  updateUrl ("/" ++ "images/logo.png") rootBaseConfig logoMapping
    <> "/" ++ "assets/images/logo-9f3ab21c.png".
Proof. vm_compute. repeat split; discriminate. Qed.

(** C1 (amended): for a key [k] mapped to a non-empty [v], with no leading
    slash, and whose site-relative form ["/" + k] does not start with
    [siteBaseUrl], [updateUrl] sends ["/" + k] to ["/" + v] and
    [siteBaseUrl + "/" + k] to [siteBaseUrl + "/" + v].  A URL whose lookup
    key has no own entry and is not a member name of [Object.prototype], or
    whose own entry is empty, is returned unchanged. *)
Theorem updateUrl_round_trip (cfg : AssetConfig) (m : AssetMappings) :
  (forall k v,
     m !! k = Some v -> v <> "" ->
     startsWith k "/" = false ->
     startsWith ("/" ++ k) (siteBaseUrl cfg) = false ->
     updateUrl ("/" ++ k) cfg m = "/" ++ v /\
     updateUrl (siteBaseUrl cfg ++ "/" ++ k) cfg m = siteBaseUrl cfg ++ "/" ++ v) /\
  (forall url,
     (m !! urlAssetPath cfg url = None /\
      object_prototype_member (urlAssetPath cfg url) = None) \/
     m !! urlAssetPath cfg url = Some "" ->
     updateUrl url cfg m = url).
Proof.
  split.
  - intros k v Hk Hv Hslash Hrel. split.
    + apply updateUrl_relative; [exact Hrel|rewrite strip_slash_once; assumption|exact Hv].
    + unfold updateUrl, urlAssetPath, startsWith.
      rewrite prefix_app, slice_app, strip_slash_once by exact Hslash.
      destruct (truthy_own m k v Hk Hv) as [T S]. rewrite T, S. reflexivity.
  - intros url [[Hown Hproto]|Hempty]; unfold updateUrl.
    + unfold js_get. rewrite Hown, Hproto. reflexivity.
    + unfold js_get. rewrite Hempty. reflexivity.
Qed.

Lemma updateUrl_round_trip_witness :
  (logoMapping !! "images/logo.png" = Some "assets/images/logo-9f3ab21c.png" /\
   "assets/images/logo-9f3ab21c.png" <> "" /\
   startsWith "images/logo.png" "/" = false /\
   startsWith ("/" ++ "images/logo.png") (siteBaseUrl repoAssetConfig) = false) /\
  updateUrl ("/" ++ "images/logo.png") repoAssetConfig logoMapping
    = "/" ++ "assets/images/logo-9f3ab21c.png" /\
  updateUrl (siteBaseUrl repoAssetConfig ++ "/" ++ "images/logo.png") repoAssetConfig logoMapping
    = siteBaseUrl repoAssetConfig ++ "/" ++ "assets/images/logo-9f3ab21c.png".
Proof.
  assert (Hk : logoMapping !! "images/logo.png" = Some "assets/images/logo-9f3ab21c.png")
    by reflexivity.
  assert (Hv : "assets/images/logo-9f3ab21c.png" <> "") by discriminate.
  assert (Hs : startsWith "images/logo.png" "/" = false) by reflexivity.
  assert (Hr : startsWith ("/" ++ "images/logo.png") (siteBaseUrl repoAssetConfig) = false)
    by reflexivity.
  split; [repeat split; assumption|].
  exact (proj1 (updateUrl_round_trip repoAssetConfig logoMapping) _ _ Hk Hv Hs Hr).
Defined.

(** C10: every value of the mapping the plugin passes to [updateUrl] is
    the [baseDir]-relative path of a file under the assets directory, so
    no value is empty (for the builder's values, see
    [builder_values_nonempty]).  On such a mapping, a URL that does not start with
    [siteBaseUrl] and whose lookup key (leading slashes stripped) is in
    the mapping is rewritten to ["/"] followed by the key's hashed path,
    gaining a leading slash if it had none. *)
Theorem updateUrl_absolutizes (cfg : AssetConfig) (m : AssetMappings) (url v : string) :
  map_Forall (fun _ x => x <> "") m ->
  startsWith url (siteBaseUrl cfg) = false ->
  m !! stripLeadingSlashes url = Some v ->
  updateUrl url cfg m = "/" ++ v.
Proof.
  intros Hm Habs Hk. apply updateUrl_relative; [exact Habs|exact Hk|].
  exact (Hm _ _ Hk).
Qed.

Lemma updateUrl_absolutizes_witness :
  map_Forall (fun _ x => x <> "") logoMapping /\
  updateUrl "images/logo.png" repoAssetConfig logoMapping = "/assets/images/logo-9f3ab21c.png".
Proof.
  assert (Hm : map_Forall (fun _ x => x <> "") logoMapping).
  { unfold logoMapping. apply map_Forall_insert_2; [discriminate|apply map_Forall_empty]. }
  split; [exact Hm|].
  apply (updateUrl_absolutizes repoAssetConfig logoMapping "images/logo.png"
           "assets/images/logo-9f3ab21c.png"); [exact Hm|reflexivity|reflexivity].
Defined.

(** ** Attributes of HTML elements *)

Lemma attr_get_set_same (l : list (string * string)) (k v : string) :
  attr_get (attr_set l k v) k = Some v.
Proof.
  induction l as [|[k' v'] l IH]; simpl.
  - rewrite String.eqb_refl. reflexivity.
  - destruct (String.eqb_spec k k') as [->|Hne]; simpl.
    + rewrite String.eqb_refl. reflexivity.
    + apply String.eqb_neq in Hne. rewrite Hne. exact IH.
Qed.

Lemma attr_get_set_other (l : list (string * string)) (k k' v : string) :
  k <> k' -> attr_get (attr_set l k v) k' = attr_get l k'.
Proof.
  intros Hne. induction l as [|[k0 v0] l IH]; simpl.
  - apply String.eqb_neq in Hne. rewrite String.eqb_sym, Hne. reflexivity.
  - destruct (String.eqb_spec k k0) as [->|Hk0]; simpl.
    + apply String.eqb_neq in Hne. rewrite String.eqb_sym, Hne. reflexivity.
    + rewrite IH. reflexivity.
Qed.

Lemma toLowerCase_link : toLowerCase "link" <> "a".
Proof. discriminate. Qed.

Lemma update_manifest_link_anchor (hm : option string) (e : element) :
  toLowerCase (tagName e) = "a" -> update_manifest_link hm e = (false, e).
Proof.
  intros Ha. unfold update_manifest_link.
  destruct (String.eqb_spec (tagName e) "link") as [Hl|_]; [|reflexivity].
  rewrite Hl in Ha. discriminate Ha.
Qed.

Lemma update_manifest_link_none (e : element) : update_manifest_link None e = (false, e).
Proof.
  unfold update_manifest_link.
  destruct (String.eqb (tagName e) "link" && attr_is e "rel" "manifest")%bool; [|reflexivity].
  destruct (attr_get (attrs e) "href"); [|reflexivity].
  destruct (negb (String.eqb s "") && endsWith s "manifest.json")%bool; reflexivity.
Qed.

(** An attribute step on another attribute keeps the tag and [href]. *)
Lemma update_attribute_keeps (cfg : AssetConfig) (m : AssetMappings) (e : element)
  (a b : string) :
  a <> b ->
  tagName (snd (update_attribute cfg m e a)) = tagName e /\
  attr_get (attrs (snd (update_attribute cfg m e a))) b = attr_get (attrs e) b.
Proof.
  intros Hab. unfold update_attribute.
  destruct (attr_get (attrs e) a) as [value|]; [|split; reflexivity].
  destruct (String.eqb value ""); [split; reflexivity|].
  destruct (String.eqb a "href" && String.eqb (toLowerCase (tagName e)) "a"
            && negb (page_link_ext value))%bool; [split; reflexivity|].
  destruct (String.eqb a "srcset");
    [destruct (negb (String.eqb (update_srcset cfg m value) value))
    |destruct (negb (String.eqb (updateUrl value cfg m) value))];
    simpl; try (split; reflexivity); split; [reflexivity| |reflexivity|];
    apply attr_get_set_other; exact Hab.
Qed.

Lemma page_link_ext_empty : page_link_ext "" = false.
Proof. reflexivity. Qed.

(** The [href] step on an anchor. *)
Lemma update_attribute_anchor_href (cfg : AssetConfig) (m : AssetMappings) (e : element)
  (v : string) :
  toLowerCase (tagName e) = "a" -> attr_get (attrs e) "href" = Some v ->
  tagName (snd (update_attribute cfg m e "href")) = tagName e /\
  attr_get (attrs (snd (update_attribute cfg m e "href"))) "href"
    = Some (if page_link_ext v then updateUrl v cfg m else v).
Proof.
  intros Ha Hv. unfold update_attribute. rewrite Hv, Ha.
  destruct (String.eqb_spec v "") as [->|Hne].
  - rewrite page_link_ext_empty. simpl. split; [reflexivity|exact Hv].
  - simpl. destruct (page_link_ext v); simpl; [|split; [reflexivity|exact Hv]].
    destruct (String.eqb_spec (updateUrl v cfg m) v) as [Heq|Hd]; simpl.
    + split; [reflexivity|]. rewrite Hv, Heq. reflexivity.
    + split; [reflexivity|]. apply attr_get_set_same.
Qed.

Lemma update_jsonld_element_attrs (JSON_parse : string -> option json) (cfg : AssetConfig)
  (m : AssetMappings) (e : element) :
  tagName (snd (update_jsonld_element JSON_parse cfg m e)) = tagName e /\
  attrs (snd (update_jsonld_element JSON_parse cfg m e)) = attrs e.
Proof.
  unfold update_jsonld_element.
  destruct (String.eqb (tagName e) "script" && attr_is e "type" "application/ld+json")%bool;
    [destruct (update_jsonld_body JSON_parse cfg m (body e))|]; split; reflexivity.
Qed.

Lemma update_element_attributes_anchor (cfg : AssetConfig) (m : AssetMappings) (e : element)
  (v : string) :
  toLowerCase (tagName e) = "a" -> attr_get (attrs e) "href" = Some v ->
  tagName (snd (update_element_attributes cfg m e)) = tagName e /\
  attr_get (attrs (snd (update_element_attributes cfg m e))) "href"
    = Some (if page_link_ext v then updateUrl v cfg m else v).
Proof.
  intros Ha Hv. unfold update_element_attributes.
  assert (Hsel : selected_by_src_href_content e = true).
  { unfold selected_by_src_href_content. rewrite Hv.
    destruct (attr_get (attrs e) "src"), (attr_get (attrs e) "content"); reflexivity. }
  rewrite Hsel. simpl.
  destruct (update_attribute cfg m e "src") as [c1 e1] eqn:E1.
  pose proof (update_attribute_keeps cfg m e "src" "href" ltac:(discriminate)) as [T1 A1].
  rewrite E1 in T1, A1. simpl in T1, A1.
  destruct (update_attribute cfg m e1 "href") as [c2 e2] eqn:E2.
  pose proof (update_attribute_anchor_href cfg m e1 v ltac:(congruence) ltac:(congruence))
    as [T2 A2].
  rewrite E2 in T2, A2. simpl in T2, A2.
  destruct (update_attribute cfg m e2 "content") as [c3 e3] eqn:E3.
  pose proof (update_attribute_keeps cfg m e2 "content" "href" ltac:(discriminate)) as [T3 A3].
  rewrite E3 in T3, A3. simpl in T3, A3.
  destruct (update_attribute cfg m e3 "srcset") as [c4 e4] eqn:E4.
  pose proof (update_attribute_keeps cfg m e3 "srcset" "href" ltac:(discriminate)) as [T4 A4].
  rewrite E4 in T4, A4. simpl in T4, A4.
  simpl. split; congruence.
Qed.

(** C8: in every HTML document, an anchor element's [href] [v] ends up as
    [updateUrl v] when [v] ends in [.html], [.css], [.js] or [.json]
    (ignoring case), and as [v] itself otherwise, whatever the mapping
    holds. *)
Theorem anchor_href_rewrite_rule (JSON_parse : string -> option json) (cfg : AssetConfig)
  (m : AssetMappings) (hm : option string) (doc : list element) (i : nat) (e : element)
  (v : string) :
  nth_error doc i = Some e ->
  toLowerCase (tagName e) = "a" ->
  attr_get (attrs e) "href" = Some v ->
  exists e',
    nth_error (snd (update_html_document JSON_parse cfg m hm doc)) i = Some e' /\
    tagName e' = tagName e /\
    attr_get (attrs e') "href" = Some (if page_link_ext v then updateUrl v cfg m else v).
Proof.
  intros Hi Ha Hv. unfold update_html_document. simpl.
  exists (snd (update_jsonld_element JSON_parse cfg m
            (snd (update_element_attributes cfg m (snd (update_manifest_link hm e)))))).
  rewrite (update_manifest_link_anchor hm e Ha). simpl.
  destruct (update_element_attributes_anchor cfg m e v Ha Hv) as [T A].
  destruct (update_jsonld_element_attrs JSON_parse cfg m
              (snd (update_element_attributes cfg m e))) as [T' A'].
  repeat split.
  - assert (H1 : nth_error (map snd (map (update_manifest_link hm) doc)) i = Some e).
    { change (Some e) with (Some (snd (false, e))).
      rewrite <- (update_manifest_link_anchor hm e Ha).
      do 2 apply map_nth_error. exact Hi. }
    do 4 apply map_nth_error. exact H1.
  - congruence.
  - rewrite A'. exact A.
Qed.

Lemma anchor_href_rewrite_rule_witness :
  (nth_error anchorDoc 0 = Some (mkElement "a" [("href", "/report.pdf")] "") /\
   reportMapping !! "report.pdf" = Some "assets/report-5d41402a.pdf" /\
   updateUrl "/report.pdf" repoAssetConfig reportMapping = "/assets/report-5d41402a.pdf") /\
  exists e',
    nth_error (snd (update_html_document json_parse repoAssetConfig reportMapping None anchorDoc)) 0
      = Some e' /\
    tagName e' = "a" /\ attr_get (attrs e') "href" = Some "/report.pdf".
Proof.
  split; [vm_compute; repeat split|].
  exact (anchor_href_rewrite_rule json_parse repoAssetConfig reportMapping None anchorDoc 0
           (mkElement "a" [("href", "/report.pdf")] "") "/report.pdf"
           eq_refl eq_refl eq_refl).
Defined.

(** ** Manifest icons *)

Lemma prop_get_set_same (kvs : list (string * json)) (k : string) (v : json) :
  prop_get (prop_set kvs k v) k = Some v.
Proof.
  induction kvs as [|[k' v'] kvs IH]; simpl.
  - rewrite String.eqb_refl. reflexivity.
  - destruct (String.eqb_spec k k') as [->|Hne]; simpl.
    + rewrite String.eqb_refl. reflexivity.
    + apply String.eqb_neq in Hne. rewrite Hne. exact IH.
Qed.

Lemma prop_get_set_other (kvs : list (string * json)) (k k' : string) (v : json) :
  k <> k' -> prop_get (prop_set kvs k v) k' = prop_get kvs k'.
Proof.
  intros Hne. induction kvs as [|[k0 v0] kvs IH]; simpl.
  - apply String.eqb_neq in Hne. rewrite String.eqb_sym, Hne. reflexivity.
  - destruct (String.eqb_spec k k0) as [->|Hk0]; simpl.
    + apply String.eqb_neq in Hne. rewrite String.eqb_sym, Hne. reflexivity.
    + rewrite IH. reflexivity.
Qed.

Lemma prefix_slice (p s : string) :
  String.prefix p s = true -> s = p ++ slice s (String.length p).
Proof.
  revert s. induction p as [|c p IH]; intros s H; simpl.
  - destruct s; reflexivity.
  - destruct s as [|c' s]; [discriminate H|]. simpl in H.
    destruct (ascii_dec c c') as [->|]; [|discriminate H].
    cbn [slice String.length]. rewrite (IH s H) at 1. reflexivity.
Qed.

Lemma match_mime_top_some (s t r : string) :
  match_mime_top s = Some (t, r) -> In t mime_top_types /\ s = t ++ "/" ++ r.
Proof.
  unfold match_mime_top.
  destruct (List.find (fun t => String.prefix (t ++ "/") s) mime_top_types) as [t'|] eqn:F;
    [|discriminate].
  intros H. injection H as <- <-.
  apply List.find_some in F as [Hin Hp]. split; [exact Hin|].
  rewrite (prefix_slice _ _ Hp) at 1. rewrite string_app_assoc.
  rewrite string_length_app. simpl. rewrite Nat.add_1_r. reflexivity.
Qed.

Lemma fixMimeType_changed (s : string) :
  fixMimeType s <> s ->
  exists t1 t2 rest, In t1 mime_top_types /\ In t2 mime_top_types /\
    s = t1 ++ "/" ++ t2 ++ "/" ++ rest /\ fixMimeType s = t1 ++ "/" ++ rest.
Proof.
  unfold fixMimeType. intros H.
  destruct (String.eqb s ""); [contradiction|].
  destruct (match_mime_top s) as [[t1 r1]|] eqn:M1; [|contradiction].
  destruct (match_mime_top r1) as [[t2 r2]|] eqn:M2; [|contradiction].
  apply match_mime_top_some in M1 as [I1 E1]. apply match_mime_top_some in M2 as [I2 E2].
  exists t1, t2, r2. subst. repeat split; assumption.
Qed.

Lemma fixMimeType_duplicated (t1 t2 rest : string) :
  In t1 mime_top_types -> In t2 mime_top_types ->
  fixMimeType (t1 ++ "/" ++ t2 ++ "/" ++ rest) = t1 ++ "/" ++ rest.
Proof.
  intros H1 H2.
  repeat (destruct H1 as [<-|H1]; [|]); [..|contradiction];
  repeat (destruct H2 as [<-|H2]; [|]); try contradiction; destruct rest; reflexivity.
Qed.

(** The icons pass sets an icon's [type] to [fixMimeType] of its type,
    whether or not its [src] changed. *)
Lemma process_icon_type (cfg : AssetConfig) (m : AssetMappings)
  (kvs : list (string * json)) (t : string) :
  prop_get kvs "type" = Some (JStr t) -> t <> "" ->
  (forall v, prop_get kvs "src" = Some v -> exists s, v = JStr s) ->
  exists kvs' upd,
    process_icon cfg m (JObj kvs) = Some (JObj kvs', upd) /\
    prop_get kvs' "type" = Some (JStr (fixMimeType t)) /\
    (fixMimeType t <> t -> upd = true).
Proof.
  intros Ht Hne Hsrc. unfold process_icon. simpl.
  assert (Htr : String.eqb t "" = false) by (apply String.eqb_neq; exact Hne).
  assert (Hty : forall kvs1 u1, prop_get kvs1 "type" = Some (JStr t) ->
    exists kvs' upd,
      (if negb (String.eqb (fixMimeType t) t)
       then Some (JObj (prop_set kvs1 "type" (JStr (fixMimeType t))), true)
       else Some (JObj kvs1, u1)) = Some (JObj kvs', upd) /\
      prop_get kvs' "type" = Some (JStr (fixMimeType t)) /\
      (fixMimeType t <> t -> upd = true)).
  { intros kvs1 u1 H1. destruct (String.eqb_spec (fixMimeType t) t) as [Heq|Hd]; simpl.
    - exists kvs1, u1. rewrite Heq. repeat split; [exact H1|contradiction].
    - exists (prop_set kvs1 "type" (JStr (fixMimeType t))), true.
      repeat split. apply prop_get_set_same. }
  destruct (prop_get kvs "src") as [v|] eqn:Hs.
  - destruct (Hsrc v eq_refl) as [s ->]. simpl.
    destruct (negb (String.eqb s "")); rewrite Ht; simpl; rewrite Htr; simpl.
    + apply Hty. rewrite prop_get_set_other by discriminate. exact Ht.
    + apply Hty. exact Ht.
  - rewrite Ht. simpl. rewrite Htr. simpl. apply Hty. exact Ht.
Qed.

(** C7 (counterexample): the repair only knows the top-level types
    [image], [audio], [video] and [application]; the duplicated prefix of
    ["text/text/plain"] is kept, and the process of an icon with that type
    leaves it as it is. *)
Lemma C7_text_type_counterexample :
  fixMimeType "text/text/plain" = "text/text/plain" /\
  process_icon repoAssetConfig iconMapping (JObj [("type", JStr "text/text/plain")])
    = Some (JObj [("type", JStr "text/text/plain")], false).
Proof. vm_compute. split; reflexivity. Qed.

(** C7 (amended): on the manifest text whose icon is
    [{ "src": "/icons/icon.png", "type": "image/image/png" }], with
    [icons/icon.png] mapped to [assets/icons/icon-ab12cd34.png], the
    manifest is written and its icon becomes
    [{ "src": "/assets/icons/icon-ab12cd34.png", "type": "image/png" }].
    For every icon object with a non-empty string [type] (and a string
    [src], if any), the icons pass sets [type] to [fixMimeType type],
    marking the manifest updated when that differs, whether or not [src]
    changed.  [fixMimeType] turns [t1/t2/rest] into [t1/rest] when [t1]
    and [t2] are among [image], [audio], [video] and [application], and
    changes no string of any other form. *)
Theorem manifest_icon_repair :
  (updateManifestFile json_parse repoAssetConfig iconMapping
     (stringify_indented iconManifestBefore)
   = (true, stringify_indented iconManifestAfter) /\
   json_parse (stringify_indented iconManifestAfter) = Some iconManifestAfter) /\
  (forall cfg m kvs t,
     prop_get kvs "type" = Some (JStr t) -> t <> "" ->
     (forall v, prop_get kvs "src" = Some v -> exists s, v = JStr s) ->
     exists kvs' upd,
       process_icon cfg m (JObj kvs) = Some (JObj kvs', upd) /\
       prop_get kvs' "type" = Some (JStr (fixMimeType t)) /\
       (fixMimeType t <> t -> upd = true)) /\
  (forall t1 t2 rest, In t1 mime_top_types -> In t2 mime_top_types ->
     fixMimeType (t1 ++ "/" ++ t2 ++ "/" ++ rest) = t1 ++ "/" ++ rest) /\
  (forall s, fixMimeType s <> s ->
     exists t1 t2 rest, In t1 mime_top_types /\ In t2 mime_top_types /\
       s = t1 ++ "/" ++ t2 ++ "/" ++ rest /\ fixMimeType s = t1 ++ "/" ++ rest).
Proof.
  split; [split; vm_compute; reflexivity|].
  split; [exact process_icon_type|].
  split; [exact fixMimeType_duplicated|exact fixMimeType_changed].
Qed.

Lemma manifest_icon_repair_witness :
  (prop_get [("src", JStr "/icons/icon.png"); ("type", JStr "image/image/png")] "type"
     = Some (JStr "image/image/png") /\
   "image/image/png" <> "" /\
   In "image" mime_top_types) /\
  process_icon repoAssetConfig iconMapping
    (JObj [("src", JStr "/icons/icon.png"); ("type", JStr "image/image/png")])
    = Some (JObj [("src", JStr "/assets/icons/icon-ab12cd34.png"); ("type", JStr "image/png")], true) /\
  fixMimeType ("image" ++ "/" ++ "image" ++ "/" ++ "png") = "image" ++ "/" ++ "png".
Proof.
  split; [split; [reflexivity|split; [discriminate|left; reflexivity]]|].
  destruct manifest_icon_repair as [_ [Hicon [Hdup _]]].
  split.
  - destruct (Hicon repoAssetConfig iconMapping
                [("src", JStr "/icons/icon.png"); ("type", JStr "image/image/png")]
                "image/image/png" eq_refl ltac:(discriminate)
                ltac:(intros v Hv; exists "/icons/icon.png"; injection Hv as <-; reflexivity))
      as (kvs' & upd & E & _ & _).
    rewrite E. vm_compute in E. symmetry. exact E.
  - apply Hdup; left; reflexivity.
Defined.

(** ** Malformed JSON *)

(** C5 (counterexample): a manifest whose text is not JSON is not
    rewritten as a raw string: [updateUrl] would change it, but the
    manifest is left as it is and not written. *)
Lemma C5_manifest_no_fallback_counterexample :
  json_parse "/icons/icon.png" = None /\
  updateUrl "/icons/icon.png" repoAssetConfig iconMapping = "/assets/icons/icon-ab12cd34.png" /\
  updateManifestFile json_parse repoAssetConfig iconMapping "/icons/icon.png"
    = (false, "/icons/icon.png").
Proof. vm_compute. repeat split. Qed.

(** C5 (amended): whatever [JSON.parse] accepts, a manifest whose text
    fails to parse is left unchanged and not written; a JSON-LD script
    body that fails to parse is replaced by [updateUrl] of the whole body,
    and marks the file changed exactly when that differs.  Within one
    pass, each manifest and each HTML document is updated as if it were
    alone (only the hashed manifest name is shared), so a failure in one
    document does not affect the others, and the files written are the
    manifests and then the documents whose own update reports a change. *)
Theorem malformed_json_fallback (JSON_parse : string -> option json) (cfg : AssetConfig)
  (m : AssetMappings) :
  (forall content, JSON_parse content = None ->
     updateManifestFile JSON_parse cfg m content = (false, content)) /\
  (forall b, JSON_parse b = None ->
     update_jsonld_body JSON_parse cfg m b
       = (negb (String.eqb (updateUrl b cfg m) b), updateUrl b cfg m)) /\
  (forall t,
     manifest_files (snd (updateHtmlFiles JSON_parse cfg m t))
       = List.map (fun pc => (fst pc, snd (updateManifestFile JSON_parse cfg m (snd pc))))
                  (manifest_files t) /\
     html_files (snd (updateHtmlFiles JSON_parse cfg m t))
       = List.map (fun pd => (fst pd,
                   snd (update_html_document JSON_parse cfg m (hashed_manifest t) (snd pd))))
                  (html_files t) /\
     fst (updateHtmlFiles JSON_parse cfg m t)
       = app (List.map fst (List.filter
                (fun pc => fst (updateManifestFile JSON_parse cfg m (snd pc))) (manifest_files t)))
             (List.map fst (List.filter
                (fun pd => fst (update_html_document JSON_parse cfg m (hashed_manifest t) (snd pd)))
                (html_files t)))).
Proof.
  split; [|split].
  - intros content H. unfold updateManifestFile. rewrite H. reflexivity.
  - intros b H. unfold update_jsonld_body. rewrite H.
    destruct (String.eqb_spec (updateUrl b cfg m) b) as [->|_]; reflexivity.
  - intros t. unfold updateHtmlFiles. cbn [List.map List.filter fst snd app manifest_files html_files].
    generalize (hashed_manifest t) as hm. intros hm.
    destruct t as [mf hf]. cbn [List.map List.filter fst snd app manifest_files html_files]. split; [|split].
    + induction mf as [|[p c] mf IH]; cbn [List.map List.filter fst snd app manifest_files html_files]; [reflexivity|].
      destruct (updateManifestFile JSON_parse cfg m c). cbn [List.map List.filter fst snd app manifest_files html_files]. f_equal. exact IH.
    + induction hf as [|[p d] hf IH]; cbn [List.map List.filter fst snd app manifest_files html_files]; [reflexivity|].
      destruct (update_html_document JSON_parse cfg m hm d). cbn [List.map List.filter fst snd app manifest_files html_files]. f_equal. exact IH.
    + f_equal.
      * induction mf as [|[p c] mf IH]; cbn [List.map List.filter fst snd app manifest_files html_files]; [reflexivity|].
        destruct (updateManifestFile JSON_parse cfg m c) as [[|] c']; cbn [List.map List.filter fst snd app manifest_files html_files];
          [f_equal|]; exact IH.
      * induction hf as [|[p d] hf IH]; cbn [List.map List.filter fst snd app manifest_files html_files]; [reflexivity|].
        destruct (update_html_document JSON_parse cfg m hm d) as [[|] d']; cbn [List.map List.filter fst snd app manifest_files html_files];
          [f_equal|]; exact IH.
Qed.

Lemma malformed_json_fallback_witness :
  json_parse "/icons/icon.png" = None /\
  updateManifestFile json_parse repoAssetConfig iconMapping "/icons/icon.png"
    = (false, "/icons/icon.png") /\
  update_jsonld_body json_parse repoAssetConfig iconMapping "/icons/icon.png"
    = (true, "/assets/icons/icon-ab12cd34.png").
Proof.
  assert (H : json_parse "/icons/icon.png" = None) by reflexivity.
  destruct (malformed_json_fallback json_parse repoAssetConfig iconMapping) as [Hm [Hj _]].
  split; [exact H|split; [exact (Hm _ H)|]].
  rewrite (Hj _ H). vm_compute. reflexivity.
Defined.

(** ** Which documents are written *)

Lemma set_attr_other (e : element) (a b v : string) :
  a <> b -> attr_get (attrs (set_attr e a v)) b = attr_get (attrs e) b.
Proof. intros H. apply attr_get_set_other, H. Qed.

(** One attribute step either leaves the element alone and reports no
    change, or sets that attribute to a new value and reports a change. *)
Lemma update_attribute_cases (cfg : AssetConfig) (m : AssetMappings) (e : element) (a : string) :
  update_attribute cfg m e a = (false, e) \/
  exists v', update_attribute cfg m e a = (true, set_attr e a v') /\
             attr_get (attrs e) a <> Some v'.
Proof.
  unfold update_attribute.
  destruct (attr_get (attrs e) a) as [value|] eqn:Hv; [|left; reflexivity].
  destruct (String.eqb value ""); [left; reflexivity|].
  destruct (String.eqb a "href" && String.eqb (toLowerCase (tagName e)) "a"
            && negb (page_link_ext value))%bool; [left; reflexivity|].
  destruct (String.eqb a "srcset").
  - destruct (String.eqb_spec (update_srcset cfg m value) value) as [_|Hd];
      [left; reflexivity|right].
    eexists. split; [reflexivity|]. intros [= E]. apply Hd. symmetry. exact E.
  - destruct (String.eqb_spec (updateUrl value cfg m) value) as [_|Hd];
      [left; reflexivity|right].
    eexists. split; [reflexivity|]. intros [= E]. apply Hd. symmetry. exact E.
Qed.


Lemma attribute_loop (cfg : AssetConfig) (m : AssetMappings) (l : list string) :
  List.NoDup l -> forall c0 e,
  let r := List.fold_left (attribute_step cfg m) l (c0, e) in
  tagName (snd r) = tagName e /\ body (snd r) = body e /\
  (forall b, ~ In b l -> attr_get (attrs (snd r)) b = attr_get (attrs e) b) /\
  (fst r = true -> c0 = true \/
     exists a, In a l /\ attr_get (attrs (snd r)) a <> attr_get (attrs e) a) /\
  (fst r = false -> c0 = false /\ snd r = e).
Proof.
  induction 1 as [|a l Hnotin Hnd IH]; intros c0 e; cbn [List.fold_left].
  - cbn zeta. repeat split; auto.
  - destruct (update_attribute_cases cfg m e a) as [E|(v' & E & Hne)].
    + replace (attribute_step cfg m (c0, e) a) with ((c0 || false)%bool, e)
        by (unfold attribute_step; rewrite E; reflexivity).
      destruct (IH (c0 || false)%bool e) as (T & B & O & C & F).
      rewrite orb_false_r in *. split; [exact T|split; [exact B|split; [|split]]].
      * intros b Hb. apply O. intros Hin. apply Hb. right. exact Hin.
      * intros H. destruct (C H) as [H1|(a' & Hin & Hd)]; [left; exact H1|].
        right. exists a'. split; [right; exact Hin|exact Hd].
      * exact F.
    + replace (attribute_step cfg m (c0, e) a) with ((c0 || true)%bool, set_attr e a v')
        by (unfold attribute_step; rewrite E; reflexivity).
      destruct (IH (c0 || true)%bool (set_attr e a v')) as (T & B & O & C & F).
      rewrite orb_true_r in *. split; [exact T|split; [exact B|split; [|split]]].
      * intros b Hb. rewrite O by (intros Hin; apply Hb; right; exact Hin).
        apply set_attr_other. intros ->. apply Hb. left. reflexivity.
      * intros _. right. exists a. split; [left; reflexivity|].
        rewrite (O a Hnotin). simpl. rewrite attr_get_set_same.
        intros Heq. apply Hne. symmetry. exact Heq.
      * intros H. destruct (F H) as [Hc _]. discriminate Hc.
Qed.

(** An element's attribute pass reports a change exactly when the
    element changed, and keeps its tag and [type]. *)
Lemma update_element_attributes_changed (cfg : AssetConfig) (m : AssetMappings) (e : element) :
  (fst (update_element_attributes cfg m e) = true -> snd (update_element_attributes cfg m e) <> e) /\
  (fst (update_element_attributes cfg m e) = false -> snd (update_element_attributes cfg m e) = e) /\
  tagName (snd (update_element_attributes cfg m e)) = tagName e /\
  attr_get (attrs (snd (update_element_attributes cfg m e))) "type" = attr_get (attrs e) "type".
Proof.
  unfold update_element_attributes.
  destruct (selected_by_src_href_content e); [|simpl; repeat split; discriminate].
  assert (Hnd : List.NoDup ["src"; "href"; "content"; "srcset"]).
  { repeat constructor; simpl; intuition discriminate. }
  destruct (attribute_loop cfg m _ Hnd false e) as (T & B & O & C & F).
  change (List.fold_left (fun '(c, e') attr =>
            let '(c', e'') := update_attribute cfg m e' attr in ((c || c')%bool, e''))
            ["src"; "href"; "content"; "srcset"] (false, e))
    with (List.fold_left (attribute_step cfg m) ["src"; "href"; "content"; "srcset"] (false, e)).
  split; [|split; [|split]].
  - intros H Heq. destruct (C H) as [Hf|(a & _ & Hd)]; [discriminate Hf|].
    apply Hd. rewrite Heq. reflexivity.
  - intros H. apply (F H).
  - exact T.
  - apply O. simpl. intuition discriminate.
Qed.

Lemma existsb_changed {A : Type} (f : A -> bool * A) (l : list A) :
  (forall x, In x l -> (fst (f x) = true -> snd (f x) <> x) /\
                       (fst (f x) = false -> snd (f x) = x)) ->
  (existsb fst (List.map f l) = true <-> List.map snd (List.map f l) <> l).
Proof.
  intros H. split.
  - induction l as [|x l IH]; simpl; [discriminate|].
    intros Ho Heq. injection Heq as Ex El.
    apply orb_true_iff in Ho as [Hf|Hr].
    + apply (proj1 (H x (or_introl eq_refl)) Hf Ex).
    + exact (IH (fun y Hy => H y (or_intror Hy)) Hr El).
  - intros Hne. destruct (existsb fst (List.map f l)) eqn:Hx; [reflexivity|].
    exfalso. apply Hne. clear Hne.
    induction l as [|x l IH]; simpl in *; [reflexivity|].
    apply orb_false_iff in Hx as [Hf Hr].
    f_equal; [apply (proj2 (H x (or_introl eq_refl)) Hf)|].
    exact (IH (fun y Hy => H y (or_intror Hy)) Hr).
Qed.


Lemma existsb_fst_unchanged {A : Type} (l : list A) :
  existsb fst (List.map (fun x => (false, x)) l) = false.
Proof. induction l as [|x l IH]; [reflexivity|exact IH]. Qed.

Lemma update_jsonld_element_other (JSON_parse : string -> option json) (cfg : AssetConfig)
  (m : AssetMappings) (e : element) :
  is_jsonld_script e = false -> update_jsonld_element JSON_parse cfg m e = (false, e).
Proof. unfold update_jsonld_element, is_jsonld_script. intros ->. reflexivity. Qed.

(** The JSON-LD selector matches the [type] value in any ASCII case. *)
Lemma is_jsonld_script_upper_type :
  is_jsonld_script (mkElement "script" [("type", "APPLICATION/LD+JSON")] "") = true.
Proof. reflexivity. Qed.

(** C6 (counterexample): an image whose only references resolve to
    nothing in the mapping is still written, because its [srcset] is
    joined back with [", "]. *)
Lemma C6_srcset_rejoin_counterexample :
  updateUrl "a.png" repoAssetConfig emptyMapping = "a.png" /\
  updateUrl "b.png" repoAssetConfig emptyMapping = "b.png" /\
  update_html_document json_parse repoAssetConfig emptyMapping None srcsetDoc
    = (true, [mkElement "img" [("src", "a.png"); ("srcset", "a.png 1x, b.png 2x")] ""]).
Proof. vm_compute. repeat split. Qed.

(** C6 (amended): for a document without a JSON-LD script, when the output
    has no hashed manifest, the document is written exactly when the
    attribute pass changed it: some [src], [href], [content] or [srcset]
    value was replaced by a different string.  This includes a [srcset]
    whose entries are joined back with [", "] even though no URL in it is
    mapped.  When a hashed manifest exists, every document with a
    [link rel="manifest"] whose [href] is non-empty and ends in
    [manifest.json] is written. *)
Theorem document_written_iff_changed (JSON_parse : string -> option json) (cfg : AssetConfig)
  (m : AssetMappings) (doc : list element) :
  (Forall (fun e => is_jsonld_script e = false) doc ->
     fst (update_html_document JSON_parse cfg m None doc) = true <->
     snd (update_html_document JSON_parse cfg m None doc) <> doc) /\
  (forall rel i e h,
     nth_error doc i = Some e -> tagName e = "link" -> attr_is e "rel" "manifest" = true ->
     attr_get (attrs e) "href" = Some h -> h <> "" -> endsWith h "manifest.json" = true ->
     fst (update_html_document JSON_parse cfg m (Some rel) doc) = true).
Proof.
  split.
  - intros Hall. unfold update_html_document.
    assert (R1 : List.map (update_manifest_link None) doc = List.map (fun x => (false, x)) doc).
    { apply map_ext. intros x. apply update_manifest_link_none. }
    assert (R1' : List.map snd (List.map (fun x => (false, x)) doc) = doc).
    { rewrite map_map. apply map_id. }
    rewrite R1, R1', existsb_fst_unchanged.
    assert (R3 : List.map (update_jsonld_element JSON_parse cfg m)
                   (List.map snd (List.map (update_element_attributes cfg m) doc))
                 = List.map (fun x => (false, x))
                   (List.map snd (List.map (update_element_attributes cfg m) doc))).
    { rewrite !map_map. apply map_ext_in. intros x Hx.
      apply update_jsonld_element_other.
      rewrite List.Forall_forall in Hall. specialize (Hall x Hx).
      destruct (update_element_attributes_changed cfg m x) as (_ & _ & T & A).
      unfold is_jsonld_script, attr_is in *. rewrite T, A. exact Hall. }
    rewrite R3, existsb_fst_unchanged.
    rewrite map_map with (f := fun x => (false, x)). simpl. rewrite map_id.
    rewrite orb_false_r. apply existsb_changed.
    intros x _. destruct (update_element_attributes_changed cfg m x) as (H1 & H2 & _).
    split; [exact H1|exact H2].
  - intros rel i e h Hi Ht Hr Hh Hne Hend. unfold update_html_document. simpl.
    assert (Hl : existsb fst (List.map (update_manifest_link (Some rel)) doc) = true).
    { apply existsb_exists. exists (update_manifest_link (Some rel) e). split.
      - apply in_map. apply nth_error_In with i. exact Hi.
      - unfold update_manifest_link. rewrite Ht, Hr, Hh. simpl.
        destruct (String.eqb_spec h "") as [E|_]; [contradiction|]. rewrite Hend. reflexivity. }
    rewrite Hl. reflexivity.
Qed.

Lemma document_written_iff_changed_witness :
  Forall (fun e => is_jsonld_script e = false) srcsetDoc /\
  (fst (update_html_document json_parse repoAssetConfig emptyMapping None srcsetDoc) = true <->
   snd (update_html_document json_parse repoAssetConfig emptyMapping None srcsetDoc) <> srcsetDoc).
Proof.
  assert (H : Forall (fun e => is_jsonld_script e = false) srcsetDoc).
  { repeat constructor. }
  split; [exact H|].
  exact (proj1 (document_written_iff_changed json_parse repoAssetConfig emptyMapping srcsetDoc) H).
Defined.

(** ** A second rewriting pass *)

(** C2 (failing input): the first pass over [jsonldTree] writes
    [index.html] with the JSON-LD body pretty-printed.  The second pass
    changes nothing in the tree, yet reports [index.html] as changed and
    writes it again: the body is compared in its compact form with the
    pretty-printed form. *)
Lemma C2_jsonld_second_pass_rewrites :
  let t1 := snd (updateHtmlFiles json_parse repoAssetConfig emptyMapping jsonldTree) in
  fst (updateHtmlFiles json_parse repoAssetConfig emptyMapping jsonldTree) = ["index.html"] /\
  fst (updateHtmlFiles json_parse repoAssetConfig emptyMapping t1) = ["index.html"] /\
  snd (updateHtmlFiles json_parse repoAssetConfig emptyMapping t1) = t1.
Proof. vm_compute. repeat split. Qed.

(** ** Keys of the output mapping *)

(** C3 (failing input): a hashed file at the root of the assets
    directory, [assets/logo-abc12345.png], is registered under
    [assets/logo.png], not under the bare [logo.png]: its directory is
    [assets], which the prefix [assets/] does not match, so the branch for
    root-level files is never taken.  A file one level down gets the key
    relative to the assets directory. *)
Lemma C3_root_asset_bare_key_missing :
  createAssetMappings "/p/dist/client" builderOutputs !! "logo.png" = None /\
  createAssetMappings "/p/dist/client" builderOutputs !! "assets/logo.png"
    = Some "assets/logo-abc12345.png" /\
  createAssetMappings "/p/dist/client" builderOutputs !! "images/hero.png"
    = Some "assets/images/hero-9f3ab21c.png".
Proof. vm_compute. repeat split. Qed.

(** ** The scanner *)

(** C9 (failing input): the basename fallback is a glob pattern built
    from the reference, so a reference [/images/*.png] with no such file
    is resolved to [src/images/logo.png], where a search by basename finds
    nothing. *)
Lemma C9_glob_basename_fallback :
  findAssetsInString "/images/*.png" "https://test.com" "src" scannerTree
    = [("images/*.png", "src/images/logo.png")] /\
  spec_findAssetsInString "/images/*.png" "https://test.com" "src" scannerTree = [].
Proof. vm_compute. split; reflexivity. Qed.

(** ** The missing-asset reconciler *)

Lemma builder_values_nonempty (baseDir : string) (outputFiles : list string) :
  forall k v, createAssetMappings baseDir outputFiles !! k = Some v -> v <> "".
Proof.
  unfold createAssetMappings.
  assert (Hinv : forall (acc : AssetMappings),
            (forall k v, acc !! k = Some v -> v <> "") ->
            forall k v, List.fold_left (create_mapping_step baseDir) outputFiles acc !! k = Some v ->
            v <> "").
  { induction outputFiles as [|f fs IH]; intros acc Hacc; simpl; [exact Hacc|].
    apply IH. intros k v. unfold create_mapping_step.
    set (rp := replace_backslashes (path_relative baseDir f)).
    destruct (Nat.ltb (List.length (split_char "-"%char (name (path_parse rp)))) 2) eqn:Hlt;
      [apply Hacc|].
    assert (Hrp : rp <> "").
    { intros E. rewrite E in Hlt. discriminate Hlt. }
    intros H. destruct (String.eqb _ "");
      repeat (apply lookup_insert_Some in H as [[_ <-]|[_ H]]; [exact Hrp|]);
      exact (Hacc _ _ H). }
  apply Hinv. intros k v H. discriminate H.
Qed.

Lemma assoc_in (l : list (string * string)) (k v : string) :
  assoc l k = Some v -> In (k, v) l.
Proof.
  induction l as [|[k' v'] l IH]; simpl; [discriminate|].
  destruct (String.eqb_spec k k') as [->|_]; [intros [= ->]; left; reflexivity|].
  intros H. right. exact (IH H).
Qed.

Lemma missing_assets_nodup (srcs : list (string * string)) (m : AssetMappings) :
  List.NoDup (List.map fst srcs) -> List.NoDup (missing_assets srcs m).
Proof.
  unfold missing_assets. induction srcs as [|[k v] srcs IH]; simpl; intros Hnd;
    [constructor|].
  inversion Hnd as [|? ? Hnotin Hnd']; subst.
  destruct (negb (truthy (js_get m k))); simpl; [constructor|]; auto.
  intros Hin. apply Hnotin. apply in_map_iff in Hin as ([k' v'] & Hk & Hin).
  apply filter_In in Hin as [Hin _]. simpl in Hk. subst k'.
  apply in_map_iff. exists (k, v'). split; [reflexivity|exact Hin].
Qed.

Lemma missing_assets_in (srcs : list (string * string)) (m : AssetMappings) (k src : string) :
  assoc srcs k = Some src -> m !! k = None -> object_prototype_member k = None ->
  In k (missing_assets srcs m).
Proof.
  intros Ha Hm Hp. unfold missing_assets. apply in_map_iff. exists (k, src).
  split; [reflexivity|]. apply filter_In. split; [exact (assoc_in _ _ _ Ha)|].
  unfold js_get. rewrite Hm, Hp. reflexivity.
Qed.

Lemma missing_assets_own (srcs : list (string * string)) (m : AssetMappings) (k v : string) :
  m !! k = Some v -> v <> "" -> ~ In k (missing_assets srcs m).
Proof.
  intros Hm Hv Hin. unfold missing_assets in Hin.
  apply in_map_iff in Hin as ([k' v'] & Hk & Hin). simpl in Hk. subst k'.
  apply filter_In in Hin as [_ Ht].
  destruct (truthy_own m k v Hm Hv) as [T _]. rewrite T in Ht. discriminate Ht.
Qed.

Lemma media_key_not_prototype (k : string) :
  has_media_extension k = true -> object_prototype_member k = None.
Proof.
  intros Hk. unfold object_prototype_member.
  destruct (String.eqb_spec k "constructor") as [->|_]; [discriminate Hk|].
  destruct (String.eqb_spec k "__proto__") as [->|_]; [discriminate Hk|].
  destruct (existsb (String.eqb k) _) eqn:E; [|reflexivity].
  apply existsb_exists in E as (x & Hin & Hx). apply String.eqb_eq in Hx. subst x.
  repeat (destruct Hin as [<-|Hin]; [discriminate Hk|]). destruct Hin.
Qed.

Section ReconcilerFacts.

Variable md5_hex : list Byte.byte -> string.
Variable baseDir assetsDir : string.
Variable srcs : list (string * string).

Lemma missing_asset_step_frame (st : FS * AssetMappings) (a k : string) :
  a <> k -> snd (missing_asset_step md5_hex baseDir assetsDir srcs st a) !! k = snd st !! k.
Proof.
  intros Hne. destruct st as [fs um]. unfold missing_asset_step.
  destruct (assoc srcs a) as [src|]; [|reflexivity].
  destruct (fs_files fs !! src) as [c|]; [|reflexivity].
  destruct (fs_writable fs (hashed_target md5_hex assetsDir a c)); [|reflexivity].
  simpl. apply lookup_insert_ne. exact Hne.
Qed.

Lemma missing_assets_fold_frame (l : list string) (k : string) :
  ~ In k l -> forall st,
  snd (List.fold_left (missing_asset_step md5_hex baseDir assetsDir srcs) l st) !! k = snd st !! k.
Proof.
  induction l as [|a l IH]; intros Hk st; simpl; [reflexivity|].
  rewrite IH by (intros H; apply Hk; right; exact H).
  apply missing_asset_step_frame. intros ->. apply Hk. left. reflexivity.
Qed.

End ReconcilerFacts.

(** C4: let the input mapping be the one the output mapping builder
    makes.  Every entry of it is in the result unchanged.  Every source
    reference [k] (backed by [src]) that has no entry in it and ends in a
    media extension, as every key the scanner produces does, is processed
    once, in the order of the references.  If at that point [src] reads as
    [content] and the target [assetsDir/<dir of k>/<name of k>-<first 8
    characters of md5_hex content><ext of k>] can be written, the file is
    written there and the result maps [k] to the target's path relative to
    [baseDir].  If the read or the write fails, the result is the one of
    processing all the other missing references in the same order, as if
    [k] were not missing. *)
Theorem reconciler_postcondition_frame (md5_hex : list Byte.byte -> string)
  (baseDir assetsDir : string) (srcs : list (string * string)) (outputFiles : list string)
  (fs : FS) :
  let m := createAssetMappings baseDir outputFiles in
  let step := missing_asset_step md5_hex baseDir assetsDir srcs in
  let target k content :=
    path_join (path_join assetsDir (dir (path_parse k)))
      (name (path_parse k) ++ "-" ++ substring 0 8 (md5_hex content) ++ ext (path_parse k)) in
  let result := processMissingAssets md5_hex baseDir assetsDir srcs fs m in
  List.NoDup (List.map fst srcs) ->
  (forall k v, m !! k = Some v -> snd result !! k = Some v) /\
  (forall k src,
     assoc srcs k = Some src -> m !! k = None -> has_media_extension k = true ->
     exists pre post,
       missing_assets srcs m = app pre (k :: post) /\
       let st := List.fold_left step pre (fs, m) in
       (forall content,
          fs_files (fst st) !! src = Some content ->
          fs_writable (fst st) (target k content) = true ->
          snd result !! k = Some (replace_backslashes (path_relative baseDir (target k content))) /\
          fs_files (fst (step st k)) !! target k content = Some content) /\
       (fs_files (fst st) !! src = None \/
        (exists content, fs_files (fst st) !! src = Some content /\
                         fs_writable (fst st) (target k content) = false) ->
        result = List.fold_left step (app pre post) (fs, m))).
Proof.
  intros m step target result Hnd. split.
  - intros k v Hk. subst result. unfold processMissingAssets.
    rewrite missing_assets_fold_frame.
    + exact Hk.
    + apply (missing_assets_own srcs m k v Hk). apply (builder_values_nonempty _ _ k v Hk).
  - intros k src Ha Hm Hx.
    destruct (in_split k _ (missing_assets_in srcs m k src Ha Hm (media_key_not_prototype k Hx)))
      as (pre & post & Hsplit).
    assert (Hpost : ~ In k post).
    { pose proof (missing_assets_nodup srcs m Hnd) as Hnd'. rewrite Hsplit in Hnd'.
      intros Hin. apply (NoDup_remove_2 _ _ _ Hnd'). apply in_or_app. right. exact Hin. }
    exists pre, post. split; [exact Hsplit|].
    assert (Hres : result = List.fold_left step post (step (List.fold_left step pre (fs, m)) k)).
    { subst result. unfold processMissingAssets. fold step. rewrite Hsplit, fold_left_app.
      reflexivity. }
    cbv zeta. split.
    + intros content Hread Hwr.
      destruct (List.fold_left step pre (fs, m)) as [fs1 m1] eqn:Hst. simpl in Hread, Hwr.
      assert (Hstep : step (fs1, m1) k =
                (mkFS (<[target k content := content]> (fs_files fs1)) (fs_writable fs1),
                 <[k := replace_backslashes (path_relative baseDir (target k content))]> m1)).
      { subst step. unfold missing_asset_step. rewrite Ha, Hread.
        unfold hashed_target. fold (target k content). rewrite Hwr. reflexivity. }
      rewrite Hres, Hstep. split.
      * subst step. rewrite missing_assets_fold_frame by exact Hpost.
        simpl. apply lookup_insert_eq.
      * simpl. apply lookup_insert_eq.
    + intros Hfail. rewrite Hres, fold_left_app. simpl. f_equal.
      destruct (List.fold_left step pre (fs, m)) as [fs1 m1] eqn:Hst. simpl in Hfail.
      subst step. unfold missing_asset_step. rewrite Ha.
      destruct Hfail as [Hnone|(content & Hread & Hwr)].
      * rewrite Hnone. reflexivity.
      * rewrite Hread. unfold hashed_target. fold (target k content). rewrite Hwr. reflexivity.
Qed.

Lemma reconciler_postcondition_frame_witness :
  List.NoDup (List.map fst reconcilerSources) /\
  snd (processMissingAssets fixed_md5_hex "/p/dist/client" "/p/dist/client/assets"
         reconcilerSources reconcilerFS (createAssetMappings "/p/dist/client" builderOutputs))
    !! "images/photo.png" = Some "assets/images/photo-5d41402a.png".
Proof.
  assert (Hnd : List.NoDup (List.map fst reconcilerSources)).
  { simpl. constructor; [intros []|constructor]. }
  split; [exact Hnd|].
  destruct (reconciler_postcondition_frame fixed_md5_hex "/p/dist/client" "/p/dist/client/assets"
              reconcilerSources builderOutputs reconcilerFS Hnd) as [_ Hpost].
  destruct (Hpost "images/photo.png" "src/images/photo.png" eq_refl eq_refl eq_refl)
    as (pre & post & Hsplit & Hok & _).
  destruct pre as [|x pre].
  - simpl in Hok.
    destruct (Hok [Byte.x89; Byte.x50; Byte.x4e; Byte.x47] eq_refl eq_refl) as [Hr _].
    rewrite Hr. vm_compute. reflexivity.
  - vm_compute in Hsplit. injection Hsplit as _ Hsplit.
    destruct pre; discriminate Hsplit.
Defined.

(* ================================================================== *)
(** * Further properties of the code *)

(** ** Helper lemmas *)

Lemma before_query_idem (s : string) : before_query (before_query s) = before_query s.
Proof.
  induction s as [|c s IH]; [reflexivity|]. simpl.
  destruct (Ascii.eqb c "?"%char || Ascii.eqb c "#"%char)%bool eqn:E; [reflexivity|].
  simpl. rewrite E, IH. reflexivity.
Qed.

Lemma strip_query_free (s : string) :
  before_query s = s -> before_query (stripLeadingSlashes s) = stripLeadingSlashes s.
Proof.
  induction s as [|c s IH]; simpl; intros H; [reflexivity|].
  destruct (Ascii.eqb c "/"%char); [|exact H].
  apply IH. destruct (Ascii.eqb c "?"%char || Ascii.eqb c "#"%char)%bool; [discriminate H|].
  injection H as H. exact H.
Qed.

Lemma strip_idem (s : string) : stripLeadingSlashes (stripLeadingSlashes s) = stripLeadingSlashes s.
Proof.
  induction s as [|c s IH]; [reflexivity|]. simpl.
  destruct (Ascii.eqb c "/"%char) eqn:E; [exact IH|]. simpl. rewrite E. reflexivity.
Qed.

Lemma existsSync_in (tree : list string) (p : string) : In p tree -> existsSync tree p = true.
Proof.
  intros H. unfold existsSync. apply existsb_exists. exists p. split; [exact H|apply String.eqb_refl].
Qed.

Lemma findAssetsInString_entry (str baseUrl srcDir : string) (tree : list string) (p f : string) :
  In (p, f) (findAssetsInString str baseUrl srcDir tree) ->
  findAssetsInString str baseUrl srcDir tree = [(p, f)] /\
  has_media_extension p = true /\ before_query p = p /\ stripLeadingSlashes p = p /\
  existsSync tree f = true.
Proof.
  unfold findAssetsInString.
  set (q := if startsWith str baseUrl then slice str (String.length baseUrl) else str).
  set (p0 := stripLeadingSlashes (before_query q)).
  assert (Hq : before_query p0 = p0 /\ stripLeadingSlashes p0 = p0).
  { split; [apply strip_query_free, before_query_idem|apply strip_idem]. }
  destruct (has_media_extension p0) eqn:Hm; cbn [negb]; [|intros []].
  destruct (existsSync tree (path_join srcDir p0)) eqn:He.
  - intros [[= <- <-]|[]]. tauto.
  - destruct (glob_recursive tree srcDir (path_basename p0)) as [|g gs] eqn:Hg; [intros []|].
    intros [[= <- <-]|[]]. repeat split; try tauto.
    apply existsSync_in.
    assert (Hin : In g (glob_recursive tree srcDir (path_basename p0))) by (rewrite Hg; left; reflexivity).
    unfold glob_recursive in Hin. apply List.filter_In in Hin as [Hin _]. exact Hin.
Qed.

Lemma insert_by_index_in {A : Type} (x : N * (string * A)) (l : list (N * (string * A))) y :
  In y (insert_by_index x l) -> y = x \/ In y l.
Proof.
  induction l as [|z l IH]; simpl.
  - intros [<-|[]]. left. reflexivity.
  - destruct (N.ltb (fst z) (fst x)); simpl.
    + intros [<-|H]; [right; left; reflexivity|]. destruct (IH H) as [->|H']; [left; reflexivity|].
      right; right; exact H'.
    + intros [<-|H]; [left; reflexivity|right; exact H].
Qed.

Lemma object_entries_in {A : Type} (kvs : list (string * A)) x :
  In x (object_entries kvs) -> In x kvs.
Proof.
  unfold object_entries. intros H. apply in_app_iff in H as [H|H].
  - apply in_map_iff in H as (y & <- & Hy). revert y Hy.
    induction kvs as [|kv kvs IH]; simpl; [intros _ []|].
    intros y Hy. destruct (array_index (fst kv)).
    + apply insert_by_index_in in Hy as [->|Hy]; [left; reflexivity|right; exact (IH y Hy)].
    + right. exact (IH y Hy).
  - apply List.filter_In in H as [H _]. exact H.
Qed.

Lemma findAssetsInJson_from_string (baseUrl srcDir : string) (tree : list string) (j : json) :
  forall e, In e (findAssetsInJson j baseUrl srcDir tree) ->
  exists s, In e (findAssetsInString s baseUrl srcDir tree).
Proof.
  revert j.
  apply (json_ind' (fun j =>
    (forall e, In e (findAssetsInJson j baseUrl srcDir tree) ->
               exists s, In e (findAssetsInString s baseUrl srcDir tree)) /\
    (forall e, In e (match j with
                     | JStr s => findAssetsInString s baseUrl srcDir tree
                     | JArr items =>
                         List.concat (List.map (fun item => findAssetsInJson item baseUrl srcDir tree) items)
                     | JObj _ => findAssetsInJson j baseUrl srcDir tree
                     | _ => []
                     end) ->
               exists s, In e (findAssetsInString s baseUrl srcDir tree)))).
  all: try (split; intros e []).
  - intros s. split; [intros e []|]. intros e H. exists s. exact H.
  - intros l Hl. split.
    + intros e H. simpl in H. apply in_concat in H as (x & Hx & He).
      apply in_map_iff in Hx as (v & <- & Hv).
      apply (proj2 (proj1 (List.Forall_forall _ _) Hl v Hv)). exact He.
    + intros e H. apply in_concat in H as (x & Hx & He).
      apply in_map_iff in Hx as (v & <- & Hv).
      apply (proj1 (proj1 (List.Forall_forall _ _) Hl v Hv)). exact He.
  - intros kvs Hkvs.
    assert (H1 : forall e, In e (findAssetsInJson (JObj kvs) baseUrl srcDir tree) ->
                 exists s, In e (findAssetsInString s baseUrl srcDir tree)).
    { intros e H. simpl in H. apply in_concat in H as (x & Hx & He).
      apply in_map_iff in Hx as (kv & <- & Hkv). apply object_entries_in in Hkv.
      apply in_map_iff in Hkv as ([k v] & <- & Hkv).
      apply (proj2 (proj1 (List.Forall_forall _ _) Hkvs (k, v) Hkv)). exact He. }
    split; [exact H1|exact H1].
Qed.

Lemma findAssetsInJsonOrString_from_string (JSON_parse : string -> option json)
  (content baseUrl srcDir : string) (tree : list string) e :
  In e (findAssetsInJsonOrString JSON_parse content baseUrl srcDir tree) ->
  exists s, In e (findAssetsInString s baseUrl srcDir tree).
Proof.
  unfold findAssetsInJsonOrString.
  destruct (startsWith (trim content) "{" || startsWith (trim content) "[")%bool.
  - destruct (JSON_parse content) as [j|].
    + apply findAssetsInJson_from_string.
    + intros H. exists content. exact H.
  - intros H. exists content. exact H.
Qed.

Lemma unreferenced_candidates_from_string (JSON_parse : string -> option json)
  (srcDir baseUrl : string) (tree : list string) (htmlFiles : list (list element))
  (manifest : option string) e :
  In e (unreferenced_candidates JSON_parse srcDir baseUrl tree htmlFiles manifest) ->
  exists s, In e (findAssetsInString s baseUrl srcDir tree).
Proof.
  assert (Hattr : forall el a, In e (attr_assets el a baseUrl srcDir tree) ->
                  exists s, In e (findAssetsInString s baseUrl srcDir tree)).
  { intros el a. unfold attr_assets. destruct (attr_get (attrs el) a) as [url|]; [|intros []].
    destruct (String.eqb url ""); [intros []|]. intros H. exists url. exact H. }
  unfold unreferenced_candidates. intros H. apply in_app_iff in H as [H|H].
  - apply in_concat in H as (x & Hx & He). apply in_map_iff in Hx as (doc & <- & _).
    unfold html_assets in He. apply in_app_iff in He as [He|He]; [|apply in_app_iff in He as [He|He]].
    + apply in_concat in He as (x & Hx & He). apply in_map_iff in Hx as (el & <- & _).
      destruct (meta_image_selected el); [exact (Hattr el _ He)|destruct He].
    + apply in_concat in He as (x & Hx & He). apply in_map_iff in Hx as (el & <- & _).
      destruct (String.eqb (tagName el) "img"); [exact (Hattr el _ He)|destruct He].
    + apply in_concat in He as (x & Hx & He). apply in_map_iff in Hx as (el & <- & _).
      destruct (is_jsonld_script el); [|destruct He].
      unfold jsonld_assets in He. destruct (String.eqb (body el) ""); [destruct He|].
      destruct (JSON_parse (body el)) as [j|].
      * exact (findAssetsInJson_from_string _ _ _ j e He).
      * exists (body el). exact He.
  - destruct manifest as [mf|]; [|destruct H].
    exact (findAssetsInJsonOrString_from_string _ _ _ _ _ e H).
Qed.

Lemma assoc_set_absent (l : list (string * string)) (k v : string) :
  ~ In k (List.map fst l) -> assoc_set l k v = app l [(k, v)].
Proof.
  induction l as [|[k' v'] l IH]; simpl; intros H; [reflexivity|].
  destruct (String.eqb_spec k k') as [->|Hne]; [exfalso; apply H; left; reflexivity|].
  f_equal. apply IH. intros Hin. apply H. right. exact Hin.
Qed.

Lemma assoc_app (l1 l2 : list (string * string)) (k : string) :
  assoc (app l1 l2) k = match assoc l1 k with Some v => Some v | None => assoc l2 k end.
Proof.
  induction l1 as [|[k' v'] l1 IH]; simpl; [reflexivity|].
  destruct (String.eqb k k'); [reflexivity|exact IH].
Qed.

Lemma assoc_none_notin (l : list (string * string)) (k : string) :
  assoc l k = None -> ~ In k (List.map fst l).
Proof.
  induction l as [|[k' v'] l IH]; simpl; [intros _ []|].
  destruct (String.eqb_spec k k') as [->|Hne]; [discriminate|].
  intros H [->|Hin]; [apply Hne; reflexivity|exact (IH H Hin)].
Qed.

Lemma nodup_snoc (l : list string) (k : string) :
  List.NoDup l -> ~ In k l -> List.NoDup (app l [k]).
Proof.
  induction 1 as [|x l Hx Hl IH]; simpl; intros Hk.
  - constructor; [intros []|constructor].
  - constructor.
    + rewrite in_app_iff. intros [H|[H|[]]]; [exact (Hx H)|apply Hk; left; symmetry; exact H].
    + apply IH. intros H. apply Hk. right. exact H.
Qed.

Lemma record_asset_step (entries : list (string * string)) (k f : string) :
  record_asset (entries, List.map fst entries) (k, f) =
  if existsb (String.eqb k) (List.map fst entries) then (entries, List.map fst entries)
  else (app entries [(k, f)], List.map fst (app entries [(k, f)])).
Proof.
  unfold record_asset. destruct (existsb (String.eqb k) (List.map fst entries)) eqn:E; [reflexivity|].
  rewrite assoc_set_absent, map_app; [reflexivity|].
  intros Hin. assert (Hx : existsb (String.eqb k) (List.map fst entries) = true).
  { apply existsb_exists. exists k. split; [exact Hin|apply String.eqb_refl]. }
  congruence.
Qed.

(** The [seen] set of the scan stays the key list of [entries]: an entry,
    once recorded, is never overwritten. *)
Lemma record_assets_fold (l : list AssetEntry) :
  forall entries, List.NoDup (List.map fst entries) ->
  let r := fst (List.fold_left record_asset l (entries, List.map fst entries)) in
  List.NoDup (List.map fst r) /\
  (forall k, assoc r k = match assoc entries k with Some v => Some v | None => assoc l k end) /\
  (forall e, In e r -> In e entries \/ In e l).
Proof.
  induction l as [|[k f] l IH]; intros entries Hnd; cbv zeta; cbn [List.fold_left].
  - cbn [fst]. split; [exact Hnd|]. split; [|tauto]. intros k. destruct (assoc entries k); reflexivity.
  - rewrite record_asset_step.
    destruct (existsb (String.eqb k) (List.map fst entries)) eqn:E.
    + destruct (IH entries Hnd) as (H1 & H2 & H3); cbv zeta in H1, H2, H3. split; [exact H1|]. split.
      * intros k'. rewrite H2. destruct (assoc entries k') eqn:A; [reflexivity|].
        cbn [assoc]. destruct (String.eqb_spec k' k) as [->|_]; [|reflexivity].
        exfalso. apply (assoc_none_notin _ _ A).
        apply existsb_exists in E as (x & Hx & Ex). apply String.eqb_eq in Ex. subst x. exact Hx.
      * intros e He. destruct (H3 e He) as [H|H]; [left; exact H|right; right; exact H].
    + assert (Hk : ~ In k (List.map fst entries)).
      { intros Hin. assert (Hx : existsb (String.eqb k) (List.map fst entries) = true).
        { apply existsb_exists. exists k. split; [exact Hin|apply String.eqb_refl]. }
        congruence. }
      assert (Hnd' : List.NoDup (List.map fst (app entries [(k, f)]))).
      { rewrite map_app. apply nodup_snoc; assumption. }
      destruct (IH _ Hnd') as (H1 & H2 & H3); cbv zeta in H1, H2, H3. split; [exact H1|]. split.
      * intros k'. rewrite H2, assoc_app. simpl.
        destruct (assoc entries k'); [reflexivity|]. destruct (String.eqb k' k); reflexivity.
      * intros e He. destruct (H3 e He) as [H|H]; [|right; right; exact H].
        apply in_app_iff in H as [H|[<-|[]]]; [left; exact H|right; left; reflexivity].
Qed.

Lemma create_mapping_step_source (baseDir : string) (acc : AssetMappings) (f k v : string) :
  create_mapping_step baseDir acc f !! k = Some v ->
  acc !! k = Some v \/
  (v = replace_backslashes (path_relative baseDir f) /\
   2 <= List.length (split_char "-"%char (name (path_parse v))) /\
   exists pre, k = pre ++ ext (path_parse v)).
Proof.
  unfold create_mapping_step.
  set (rel := replace_backslashes (path_relative baseDir f)).
  set (parsed := path_parse rel).
  set (parts := split_char "-"%char (name parsed)).
  destruct (Nat.ltb (List.length parts) 2) eqn:Hl; [intros H; left; exact H|].
  apply Nat.ltb_ge in Hl.
  set (baseName := join "-" (List.removelast parts)).
  set (directory := if startsWith (dir parsed) "assets/" then slice (dir parsed) 7 else dir parsed).
  assert (Hfull : forall k', k' = (if negb (String.eqb directory "")
                                   then directory ++ "/" ++ baseName ++ ext parsed
                                   else baseName ++ ext parsed) ->
                  exists pre, k' = pre ++ ext parsed).
  { intros k' ->. destruct (negb (String.eqb directory "")).
    - exists (directory ++ "/" ++ baseName). rewrite !string_app_assoc. reflexivity.
    - exists baseName. reflexivity. }
  destruct (String.eqb directory "").
  - intros H. apply lookup_insert_Some in H as [[Hk <-]|[_ H]].
    + right. split; [reflexivity|]. split; [exact Hl|]. exists baseName. rewrite <- Hk. reflexivity.
    + apply lookup_insert_Some in H as [[Hk <-]|[_ H]]; [|left; exact H].
      right. split; [reflexivity|]. split; [exact Hl|]. exact (Hfull k (eq_sym Hk)).
  - intros H. apply lookup_insert_Some in H as [[Hk <-]|[_ H]]; [|left; exact H].
    right. split; [reflexivity|]. split; [exact Hl|]. exact (Hfull k (eq_sym Hk)).
Qed.

Lemma findUnreferencedAssets_entry (JSON_parse : string -> option json)
  (srcDir baseUrl : string) (tree : list string) (htmlFiles : list (list element))
  (manifest : option string) (p f : string) :
  In (p, f) (findUnreferencedAssets JSON_parse srcDir baseUrl tree htmlFiles manifest) ->
  has_media_extension p = true /\ before_query p = p /\ stripLeadingSlashes p = p /\
  existsSync tree f = true.
Proof.
  intros H.
  destruct (record_assets_fold (unreferenced_candidates JSON_parse srcDir baseUrl tree htmlFiles manifest)
              [] (List.NoDup_nil _)) as (_ & _ & H3).
  destruct (H3 _ H) as [[]|Hc].
  destruct (unreferenced_candidates_from_string _ _ _ _ _ _ _ Hc) as [s Hs].
  destruct (findAssetsInString_entry _ _ _ _ _ _ Hs) as (_ & R). exact R.
Qed.

Lemma assoc_of_in (l : list (string * string)) (k s : string) :
  In (k, s) l -> exists s', assoc l k = Some s' /\ In (k, s') l.
Proof.
  induction l as [|[k' v'] l IH]; simpl; [intros []|].
  destruct (String.eqb_spec k k') as [->|Hne].
  - intros _. exists v'. split; [reflexivity|left; reflexivity].
  - intros [[= -> _]|H]; [contradiction|].
    destruct (IH H) as (s' & Ha & Hi). exists s'. split; [exact Ha|right; exact Hi].
Qed.

Section ReconcilerMore.

Variable md5_hex : list Byte.byte -> string.
Variable baseDir assetsDir : string.
Variable srcs : list (string * string).

Lemma missing_asset_step_cases (st : FS * AssetMappings) (a : string) :
  missing_asset_step md5_hex baseDir assetsDir srcs st a = st \/
  exists c, missing_asset_step md5_hex baseDir assetsDir srcs st a =
    (mkFS (<[hashed_target md5_hex assetsDir a c := c]> (fs_files (fst st))) (fs_writable (fst st)),
     <[a := replace_backslashes (path_relative baseDir (hashed_target md5_hex assetsDir a c))]> (snd st)).
Proof.
  destruct st as [fs um]. unfold missing_asset_step.
  destruct (assoc srcs a) as [src|]; [|left; reflexivity].
  destruct (fs_files fs !! src) as [c|]; [|left; reflexivity].
  destruct (fs_writable fs (hashed_target md5_hex assetsDir a c)); [|left; reflexivity].
  right. exists c. reflexivity.
Qed.

Lemma missing_assets_fold_keys (l : list string) :
  forall st k v, snd st !! k = Some v ->
  exists v', snd (List.fold_left (missing_asset_step md5_hex baseDir assetsDir srcs) l st) !! k = Some v'.
Proof.
  induction l as [|a l IH]; simpl; intros st k v H; [exists v; exact H|].
  destruct (missing_asset_step_cases st a) as [->|[c ->]]; [exact (IH _ _ _ H)|].
  apply (IH _ k (if String.eqb k a then replace_backslashes (path_relative baseDir
           (hashed_target md5_hex assetsDir a c)) else v)).
  cbn [snd]. destruct (String.eqb_spec k a) as [->|Hne].
  - apply lookup_insert_eq.
  - transitivity (snd st !! k); [apply lookup_insert_ne; congruence|exact H].
Qed.

Lemma missing_assets_fold_values (l : list string) :
  forall st k v, snd (List.fold_left (missing_asset_step md5_hex baseDir assetsDir srcs) l st) !! k = Some v ->
  snd st !! k = Some v \/
  (In k l /\ exists c, v = replace_backslashes (path_relative baseDir (hashed_target md5_hex assetsDir k c))).
Proof.
  induction l as [|a l IH]; simpl; intros st k v H; [left; exact H|].
  destruct (IH _ _ _ H) as [H'|[Hin R]]; [|right; split; [right; exact Hin|exact R]].
  destruct (missing_asset_step_cases st a) as [E|[c E]]; rewrite E in H'; [left; exact H'|].
  cbn [snd fst fs_files] in H'. apply lookup_insert_Some in H' as [[<- <-]|[_ H']]; [|left; exact H'].
  right. split; [left; reflexivity|]. exists c. reflexivity.
Qed.

Lemma missing_assets_fold_files (l : list string) :
  forall st p c, fs_files (fst (List.fold_left (missing_asset_step md5_hex baseDir assetsDir srcs) l st)) !! p = Some c ->
  fs_files (fst st) !! p = Some c \/ (exists k, In k l /\ p = hashed_target md5_hex assetsDir k c).
Proof.
  induction l as [|a l IH]; simpl; intros st p c H; [left; exact H|].
  destruct (IH _ _ _ H) as [H'|(k & Hk & Hp)]; [|right; exists k; split; [right; exact Hk|exact Hp]].
  destruct (missing_asset_step_cases st a) as [E|[c' E]]; rewrite E in H'; [left; exact H'|].
  cbn [snd fst fs_files] in H'. apply lookup_insert_Some in H' as [[<- <-]|[_ H']]; [|left; exact H'].
  right. exists a. split; [left; reflexivity|reflexivity].
Qed.

End ReconcilerMore.

Lemma existsb_unchanged {A : Type} (f : A -> bool * A) (l : list A) :
  (forall x, In x l -> fst (f x) = false -> snd (f x) = x) ->
  existsb fst (List.map f l) = false -> List.map snd (List.map f l) = l.
Proof.
  induction l as [|x l IH]; simpl; intros H Hx; [reflexivity|].
  apply orb_false_iff in Hx as [Hf Hr].
  f_equal; [exact (H x (or_introl eq_refl) Hf)|].
  exact (IH (fun y Hy => H y (or_intror Hy)) Hr).
Qed.

Lemma existsb_some_changed {A : Type} (f : A -> bool * A) (l : list A) :
  (forall x, In x l -> fst (f x) = true -> snd (f x) <> x) ->
  (forall x, In x l -> fst (f x) = false -> snd (f x) = x) ->
  existsb fst (List.map f l) = true -> List.map snd (List.map f l) <> l.
Proof.
  intros Ht Hf. apply (proj1 (existsb_changed f l (fun x Hx => conj (Ht x Hx) (Hf x Hx)))).
Qed.

Lemma processManifestUrls_changed (cfg : AssetConfig) (m : AssetMappings) (j : json) :
  (fst (processManifestUrls cfg m j) = true -> snd (processManifestUrls cfg m j) <> j) /\
  (fst (processManifestUrls cfg m j) = false -> snd (processManifestUrls cfg m j) = j).
Proof.
  revert j. apply json_ind'.
  all: try (intros; split; [discriminate|reflexivity]).
  - intros l Hl. rewrite List.Forall_forall in Hl.
    set (F := fun v => match v with
                       | JStr s => update_string cfg m s
                       | _ => processManifestUrls cfg m v
                       end).
    assert (HF : forall x, In x l -> (fst (F x) = true -> snd (F x) <> x) /\
                                     (fst (F x) = false -> snd (F x) = x)).
    { intros x Hx. destruct x; try exact (Hl _ Hx).
      unfold F, update_string. cbn [fst snd].
      destruct (String.eqb_spec (updateUrl s cfg m) s); simpl; split; congruence. }
    change (processManifestUrls cfg m (JArr l)) with
      (existsb fst (List.map F l), JArr (List.map snd (List.map F l))).
    cbn [fst snd]. split.
    + intros Ht Heq. injection Heq as Heq. revert Heq.
      exact (existsb_some_changed F l (fun x Hx => proj1 (HF x Hx)) (fun x Hx => proj2 (HF x Hx)) Ht).
    + intros Hf. f_equal. exact (existsb_unchanged F l (fun x Hx => proj2 (HF x Hx)) Hf).
  - intros kvs Hkvs. rewrite List.Forall_forall in Hkvs.
    set (G := fun kv : string * json => let '(k, v) := kv in
        if String.eqb k "icons" then
          match v with
          | JStr _ => (false, (k, v))
          | _ => let '(c, v') := processManifestUrls cfg m v in (c, (k, v'))
          end
        else
          match v with
          | JStr s => let '(c, v') := update_string cfg m s in (c, (k, v'))
          | _ => let '(c, v') := processManifestUrls cfg m v in (c, (k, v'))
          end).
    assert (HG : forall x, In x kvs -> (fst (G x) = true -> snd (G x) <> x) /\
                                       (fst (G x) = false -> snd (G x) = x)).
    { intros [k v] Hx. pose proof (Hkvs _ Hx) as Hv. cbn [snd] in Hv. revert Hv.
      unfold G. remember (processManifestUrls cfg m v) as pv eqn:Epv.
      destruct (String.eqb k "icons").
      - destruct v; try (intros _; split; cbn [fst snd]; [discriminate|reflexivity]);
          destruct pv as [c v']; cbn [fst snd]; intros [H1 H2];
          (split; intros Hc; [intros Heq; apply (H1 Hc); congruence|rewrite (H2 Hc); reflexivity]).
      - destruct v;
          [| | | intros _; unfold update_string; cbn [fst snd];
                 destruct (String.eqb_spec (updateUrl s cfg m) s); simpl; split; congruence | |];
          destruct pv as [c v']; cbn [fst snd]; intros [H1 H2];
          (split; intros Hc; [intros Heq; apply (H1 Hc); congruence|rewrite (H2 Hc); reflexivity]). }
    change (processManifestUrls cfg m (JObj kvs)) with
      (existsb fst (List.map G kvs), JObj (List.map snd (List.map G kvs))).
    cbn [fst snd]. split.
    + intros Ht Heq. injection Heq as Heq. revert Heq.
      exact (existsb_some_changed G kvs (fun x Hx => proj1 (HG x Hx)) (fun x Hx => proj2 (HG x Hx)) Ht).
    + intros Hf. f_equal. exact (existsb_unchanged G kvs (fun x Hx => proj2 (HG x Hx)) Hf).
Qed.

Lemma prototype_member_no_slash (k r : string) :
  object_prototype_member k = Some r -> stripLeadingSlashes k = k.
Proof.
  unfold object_prototype_member.
  destruct (String.eqb_spec k "constructor") as [->|_]; [reflexivity|].
  destruct (String.eqb_spec k "__proto__") as [->|_]; [reflexivity|].
  destruct (existsb (String.eqb k) _) eqn:E; [|discriminate].
  intros _. apply existsb_exists in E as (x & Hx & Ex). apply String.eqb_eq in Ex. subst x.
  repeat (destruct Hx as [<-|Hx]; [reflexivity|]). destruct Hx.
Qed.






(** ** [findAssetsInString] *)

(** When the scanner returns an entry [(p, f)], that is its only entry;
    [p] ends in a media extension, carries no query or fragment and no
    leading slash, and [f] is a path that exists in the source tree. *)
Theorem findAssetsInString_result (str baseUrl srcDir : string) (tree : list string) (p f : string) :
  In (p, f) (findAssetsInString str baseUrl srcDir tree) ->
  findAssetsInString str baseUrl srcDir tree = [(p, f)] /\
  has_media_extension p = true /\ before_query p = p /\ stripLeadingSlashes p = p /\
  existsSync tree f = true.
Proof. apply findAssetsInString_entry. Qed.

Lemma findAssetsInString_result_witness :
  In ("images/logo.png", "src/images/logo.png")
     (findAssetsInString "https://test.com/images/logo.png?v=2" "https://test.com" "src" scannerTree) /\
  findAssetsInString "https://test.com/images/logo.png?v=2" "https://test.com" "src" scannerTree =
    [("images/logo.png", "src/images/logo.png")] /\
  has_media_extension "images/logo.png" = true /\
  before_query "images/logo.png" = "images/logo.png" /\
  stripLeadingSlashes "images/logo.png" = "images/logo.png" /\
  existsSync scannerTree "src/images/logo.png" = true.
Proof.
  assert (H : In ("images/logo.png", "src/images/logo.png")
                 (findAssetsInString "https://test.com/images/logo.png?v=2" "https://test.com" "src"
                    scannerTree)) by (vm_compute; left; reflexivity).
  split; [exact H|]. exact (findAssetsInString_result _ _ _ _ _ _ H).
Defined.

(** A reference written absolutely, as [baseUrl] followed by a string
    that does not itself start with [baseUrl], is scanned exactly like
    that string alone. *)
Theorem findAssetsInString_base_prefix (str baseUrl srcDir : string) (tree : list string) :
  startsWith str baseUrl = false ->
  findAssetsInString (baseUrl ++ str) baseUrl srcDir tree =
  findAssetsInString str baseUrl srcDir tree.
Proof.
  intros H. unfold findAssetsInString. unfold startsWith in *.
  rewrite H, prefix_app, slice_app. reflexivity.
Qed.

Lemma findAssetsInString_base_prefix_witness :
  startsWith "/images/logo.png" "https://test.com" = false /\
  findAssetsInString ("https://test.com" ++ "/images/logo.png") "https://test.com" "src" scannerTree =
  findAssetsInString "/images/logo.png" "https://test.com" "src" scannerTree.
Proof.
  assert (H : startsWith "/images/logo.png" "https://test.com" = false) by reflexivity.
  split; [exact H|]. exact (findAssetsInString_base_prefix _ _ _ _ H).
Defined.

(** ** [findAssetsInJson] and [findAssetsInJsonOrString] *)

(** Strings held directly in an array that is a property value are never
    scanned, because [findAssetsInJson] of a string gives no entry; the
    strings of a top-level array are scanned in order. *)
Theorem findAssetsInJson_array_strings (k : string) (ss : list string)
  (baseUrl srcDir : string) (tree : list string) :
  findAssetsInJson (JObj [(k, JArr (List.map JStr ss))]) baseUrl srcDir tree = [] /\
  findAssetsInJson (JArr (List.map JStr ss)) baseUrl srcDir tree =
    List.concat (List.map (fun s => findAssetsInString s baseUrl srcDir tree) ss).
Proof.
  split.
  - assert (Hv : List.concat (List.map (fun item => findAssetsInJson item baseUrl srcDir tree)
                                (List.map JStr ss)) = []).
    { induction ss as [|s ss IH]; [reflexivity|exact IH]. }
    simpl. unfold object_entries. simpl.
    destruct (array_index k); simpl; rewrite Hv; reflexivity.
  - induction ss as [|s ss IH]; [reflexivity|]. simpl in *. rewrite IH. reflexivity.
Qed.

(** Every entry of [findAssetsInJsonOrString], whether the content is
    walked as JSON or scanned as one string, has the guarantees of a
    [findAssetsInString] entry: a media extension, no query, fragment or
    leading slash, and an existing file. *)
Theorem findAssetsInJsonOrString_sound (JSON_parse : string -> option json)
  (content baseUrl srcDir : string) (tree : list string) (p f : string) :
  In (p, f) (findAssetsInJsonOrString JSON_parse content baseUrl srcDir tree) ->
  has_media_extension p = true /\ before_query p = p /\ stripLeadingSlashes p = p /\
  existsSync tree f = true.
Proof.
  intros H. destruct (findAssetsInJsonOrString_from_string _ _ _ _ _ _ H) as [s Hs].
  destruct (findAssetsInString_entry _ _ _ _ _ _ Hs) as (_ & R). exact R.
Qed.

Lemma findAssetsInJsonOrString_sound_witness :
  In ("images/logo.png", "src/images/logo.png")
     (findAssetsInJsonOrString json_parse (stringify scanManifest) "https://test.com" "src" scannerTree) /\
  has_media_extension "images/logo.png" = true /\
  before_query "images/logo.png" = "images/logo.png" /\
  stripLeadingSlashes "images/logo.png" = "images/logo.png" /\
  existsSync scannerTree "src/images/logo.png" = true.
Proof.
  assert (H : In ("images/logo.png", "src/images/logo.png")
                 (findAssetsInJsonOrString json_parse (stringify scanManifest) "https://test.com" "src"
                    scannerTree)) by (vm_compute; left; reflexivity).
  split; [exact H|]. exact (findAssetsInJsonOrString_sound _ _ _ _ _ _ _ H).
Defined.

(** ** [findUnreferencedAssets] *)

(** The result has each original path once, and maps it to the full path
    of the first entry with that original path in scan order (the meta
    tags, images and JSON-LD scripts of each HTML file in turn, then the
    manifest); every pair of the result is one the scan met. *)
Theorem findUnreferencedAssets_first_wins (JSON_parse : string -> option json)
  (srcDir baseUrl : string) (tree : list string) (htmlFiles : list (list element))
  (manifest : option string) :
  List.NoDup (List.map fst (findUnreferencedAssets JSON_parse srcDir baseUrl tree htmlFiles manifest)) /\
  (forall k, assoc (findUnreferencedAssets JSON_parse srcDir baseUrl tree htmlFiles manifest) k =
             assoc (unreferenced_candidates JSON_parse srcDir baseUrl tree htmlFiles manifest) k) /\
  (forall e, In e (findUnreferencedAssets JSON_parse srcDir baseUrl tree htmlFiles manifest) ->
             In e (unreferenced_candidates JSON_parse srcDir baseUrl tree htmlFiles manifest)).
Proof.
  destruct (record_assets_fold (unreferenced_candidates JSON_parse srcDir baseUrl tree htmlFiles manifest)
              [] (List.NoDup_nil _)) as (H1 & H2 & H3).
  unfold findUnreferencedAssets. split; [exact H1|]. split; [exact H2|].
  intros e He. destruct (H3 e He) as [[]|H]. exact H.
Qed.

(** Every pair [(p, f)] of the result has a media extension, no query,
    fragment or leading slash in [p], and an existing file [f]. *)
Theorem findUnreferencedAssets_sound (JSON_parse : string -> option json)
  (srcDir baseUrl : string) (tree : list string) (htmlFiles : list (list element))
  (manifest : option string) (p f : string) :
  In (p, f) (findUnreferencedAssets JSON_parse srcDir baseUrl tree htmlFiles manifest) ->
  has_media_extension p = true /\ before_query p = p /\ stripLeadingSlashes p = p /\
  existsSync tree f = true.
Proof. apply findUnreferencedAssets_entry. Qed.

Lemma findUnreferencedAssets_sound_witness :
  In ("images/logo.png", "src/images/logo.png")
     (findUnreferencedAssets json_parse "src" "https://test.com" scannerTree [scanDoc] None) /\
  has_media_extension "images/logo.png" = true /\
  before_query "images/logo.png" = "images/logo.png" /\
  stripLeadingSlashes "images/logo.png" = "images/logo.png" /\
  existsSync scannerTree "src/images/logo.png" = true.
Proof.
  assert (H : In ("images/logo.png", "src/images/logo.png")
                 (findUnreferencedAssets json_parse "src" "https://test.com" scannerTree [scanDoc] None))
    by (vm_compute; left; reflexivity).
  split; [exact H|]. exact (findUnreferencedAssets_sound _ _ _ _ _ _ _ _ H).
Defined.

(** ** [createAssetMappings] *)

(** Every value of the output mapping is the [baseDir]-relative path of
    one of the output files, whose name has at least one [-]; its key
    ends in that path's extension. *)
Theorem createAssetMappings_values (baseDir : string) (outputFiles : list string) (k v : string) :
  createAssetMappings baseDir outputFiles !! k = Some v ->
  exists f, In f outputFiles /\ v = replace_backslashes (path_relative baseDir f) /\
    2 <= List.length (split_char "-"%char (name (path_parse v))) /\
    exists pre, k = pre ++ ext (path_parse v).
Proof.
  unfold createAssetMappings.
  assert (Hgen : forall l (acc : AssetMappings),
    List.fold_left (create_mapping_step baseDir) l acc !! k = Some v ->
    acc !! k = Some v \/
    exists f, In f l /\ v = replace_backslashes (path_relative baseDir f) /\
      2 <= List.length (split_char "-"%char (name (path_parse v))) /\
      exists pre, k = pre ++ ext (path_parse v)).
  { induction l as [|f l IH]; simpl; intros acc H; [left; exact H|].
    destruct (IH _ H) as [H'|(g & Hg & R)].
    - apply create_mapping_step_source in H' as [H'|R]; [left; exact H'|].
      right. exists f. split; [left; reflexivity|exact R].
    - right. exists g. split; [right; exact Hg|exact R]. }
  intros H. destruct (Hgen outputFiles ∅ H) as [H'|R]; [|exact R].
  discriminate H'.
Qed.

Lemma createAssetMappings_values_witness :
  createAssetMappings "/p/dist/client" builderOutputs !! "images/hero.png" =
    Some "assets/images/hero-9f3ab21c.png" /\
  exists f, In f builderOutputs /\
    "assets/images/hero-9f3ab21c.png" = replace_backslashes (path_relative "/p/dist/client" f) /\
    2 <= List.length (split_char "-"%char (name (path_parse "assets/images/hero-9f3ab21c.png"))) /\
    exists pre, "images/hero.png" = pre ++ ext (path_parse "assets/images/hero-9f3ab21c.png").
Proof.
  assert (H : createAssetMappings "/p/dist/client" builderOutputs !! "images/hero.png" =
              Some "assets/images/hero-9f3ab21c.png") by (vm_compute; reflexivity).
  split; [exact H|]. exact (createAssetMappings_values _ _ _ _ H).
Defined.

(** ** [processMissingAssets] *)

(** No key of the input mapping is removed, and an entry with a non-empty
    value keeps its value. *)
Theorem processMissingAssets_keeps_entries (md5_hex : list Byte.byte -> string)
  (baseDir assetsDir : string) (srcs : list (string * string)) (fs : FS) (m : AssetMappings)
  (k v : string) :
  m !! k = Some v ->
  exists v', snd (processMissingAssets md5_hex baseDir assetsDir srcs fs m) !! k = Some v' /\
             (v <> "" -> v' = v).
Proof.
  intros H. unfold processMissingAssets.
  destruct (missing_assets_fold_keys md5_hex baseDir assetsDir srcs (missing_assets srcs m) (fs, m) k v H)
    as [v' Hv']. exists v'. split; [exact Hv'|].
  intros Hne. rewrite missing_assets_fold_frame in Hv' by exact (missing_assets_own srcs m k v H Hne).
  simpl in Hv'. congruence.
Qed.

Lemma processMissingAssets_keeps_entries_witness :
  createAssetMappings "/p/dist/client" builderOutputs !! "images/hero.png" =
    Some "assets/images/hero-9f3ab21c.png" /\
  exists v', snd (processMissingAssets fixed_md5_hex "/p/dist/client" "/p/dist/client/assets"
                    reconcilerSources reconcilerFS (createAssetMappings "/p/dist/client" builderOutputs))
               !! "images/hero.png" = Some v' /\
             ("assets/images/hero-9f3ab21c.png" <> "" -> v' = "assets/images/hero-9f3ab21c.png").
Proof.
  assert (H : createAssetMappings "/p/dist/client" builderOutputs !! "images/hero.png" =
              Some "assets/images/hero-9f3ab21c.png") by (vm_compute; reflexivity).
  split; [exact H|]. exact (processMissingAssets_keeps_entries _ _ _ _ _ _ _ _ H).
Defined.

(** Every entry of the result is an entry of the input mapping, or maps a
    missing source key [k] to the [baseDir]-relative path of the hashed
    target of [k] for some file content. *)
Theorem processMissingAssets_new_entries (md5_hex : list Byte.byte -> string)
  (baseDir assetsDir : string) (srcs : list (string * string)) (fs : FS) (m : AssetMappings)
  (k v : string) :
  snd (processMissingAssets md5_hex baseDir assetsDir srcs fs m) !! k = Some v ->
  m !! k = Some v \/
  (In k (missing_assets srcs m) /\
   exists c, v = replace_backslashes (path_relative baseDir (hashed_target md5_hex assetsDir k c))).
Proof. apply missing_assets_fold_values. Qed.

Lemma processMissingAssets_new_entries_witness :
  snd (processMissingAssets fixed_md5_hex "/p/dist/client" "/p/dist/client/assets"
         reconcilerSources reconcilerFS emptyMapping) !! "images/photo.png" =
    Some "assets/images/photo-5d41402a.png" /\
  (emptyMapping !! "images/photo.png" = Some "assets/images/photo-5d41402a.png" \/
   (In "images/photo.png" (missing_assets reconcilerSources emptyMapping) /\
    exists c, "assets/images/photo-5d41402a.png" =
      replace_backslashes (path_relative "/p/dist/client"
        (hashed_target fixed_md5_hex "/p/dist/client/assets" "images/photo.png" c)))).
Proof.
  assert (H : snd (processMissingAssets fixed_md5_hex "/p/dist/client" "/p/dist/client/assets"
                     reconcilerSources reconcilerFS emptyMapping) !! "images/photo.png" =
              Some "assets/images/photo-5d41402a.png") by (vm_compute; reflexivity).
  split; [exact H|]. exact (processMissingAssets_new_entries _ _ _ _ _ _ _ _ H).
Defined.

(** Every file of the resulting file system is a file of the input, or
    was written at the hashed target of a missing source key, with the
    content [c] whose digest names the target. *)
Theorem processMissingAssets_files (md5_hex : list Byte.byte -> string)
  (baseDir assetsDir : string) (srcs : list (string * string)) (fs : FS) (m : AssetMappings)
  (p : string) (c : list Byte.byte) :
  fs_files (fst (processMissingAssets md5_hex baseDir assetsDir srcs fs m)) !! p = Some c ->
  fs_files fs !! p = Some c \/
  exists k, In k (missing_assets srcs m) /\ p = hashed_target md5_hex assetsDir k c.
Proof. apply missing_assets_fold_files. Qed.

Lemma processMissingAssets_files_witness :
  fs_files (fst (processMissingAssets fixed_md5_hex "/p/dist/client" "/p/dist/client/assets"
                   reconcilerSources reconcilerFS emptyMapping))
    !! "/p/dist/client/assets/images/photo-5d41402a.png" =
    Some [Byte.x89; Byte.x50; Byte.x4e; Byte.x47] /\
  (fs_files reconcilerFS !! "/p/dist/client/assets/images/photo-5d41402a.png" =
     Some [Byte.x89; Byte.x50; Byte.x4e; Byte.x47] \/
   exists k, In k (missing_assets reconcilerSources emptyMapping) /\
     "/p/dist/client/assets/images/photo-5d41402a.png" =
       hashed_target fixed_md5_hex "/p/dist/client/assets" k [Byte.x89; Byte.x50; Byte.x4e; Byte.x47]).
Proof.
  assert (H : fs_files (fst (processMissingAssets fixed_md5_hex "/p/dist/client" "/p/dist/client/assets"
                               reconcilerSources reconcilerFS emptyMapping))
                !! "/p/dist/client/assets/images/photo-5d41402a.png" =
              Some [Byte.x89; Byte.x50; Byte.x4e; Byte.x47]) by (vm_compute; reflexivity).
  split; [exact H|]. exact (processMissingAssets_files _ _ _ _ _ _ _ _ H).
Defined.

(** The reconciler reads its sources from [findUnreferencedAssets] over
    [src].  Every entry it adds or changes is keyed by a scanned original
    path: it has a media extension, no query, fragment or leading slash,
    its source is an existing file, and its value is the relative path of
    that key's hashed target. *)
Theorem reconciled_scanned_sources (JSON_parse : string -> option json) (cfg : AssetConfig)
  (tree : list string) (htmlFiles : list (list element)) (manifest : option string)
  (md5_hex : list Byte.byte -> string) (baseDir assetsDir : string) (fs : FS) (m : AssetMappings)
  (k v : string) :
  snd (processMissingAssets md5_hex baseDir assetsDir
         (findUnreferencedAssets JSON_parse "src" (siteBaseUrl cfg) tree htmlFiles manifest) fs m)
    !! k = Some v ->
  m !! k <> Some v ->
  has_media_extension k = true /\ before_query k = k /\ stripLeadingSlashes k = k /\
  (exists src, assoc (findUnreferencedAssets JSON_parse "src" (siteBaseUrl cfg) tree htmlFiles manifest) k
                 = Some src /\ existsSync tree src = true) /\
  exists c, v = replace_backslashes (path_relative baseDir (hashed_target md5_hex assetsDir k c)).
Proof.
  set (srcs := findUnreferencedAssets JSON_parse "src" (siteBaseUrl cfg) tree htmlFiles manifest).
  intros H Hm. unfold processMissingAssets in H.
  destruct (missing_assets_fold_values md5_hex baseDir assetsDir srcs _ (fs, m) k v H)
    as [H'|[Hin Hc]]; [contradiction|].
  unfold missing_assets in Hin. apply in_map_iff in Hin as ([k' s] & Hk & Hin). simpl in Hk. subst k'.
  apply List.filter_In in Hin as [Hin _].
  destruct (assoc_of_in srcs k s Hin) as (s' & Ha & Hin').
  destruct (findUnreferencedAssets_entry _ _ _ _ _ _ _ _ Hin') as (Hmed & Hq & Hs & He).
  split; [exact Hmed|]. split; [exact Hq|]. split; [exact Hs|]. split; [|exact Hc].
  exists s'. split; [exact Ha|exact He].
Qed.

Lemma reconciled_scanned_sources_witness :
  snd (processMissingAssets fixed_md5_hex "/p/dist/client" "/p/dist/client/assets"
         (findUnreferencedAssets json_parse "src" (siteBaseUrl repoAssetConfig) photoTree [photoDoc] None)
         reconcilerFS emptyMapping) !! "images/photo.png" = Some "assets/images/photo-5d41402a.png" /\
  emptyMapping !! "images/photo.png" <> Some "assets/images/photo-5d41402a.png" /\
  has_media_extension "images/photo.png" = true /\
  before_query "images/photo.png" = "images/photo.png" /\
  stripLeadingSlashes "images/photo.png" = "images/photo.png" /\
  (exists src, assoc (findUnreferencedAssets json_parse "src" (siteBaseUrl repoAssetConfig) photoTree
                        [photoDoc] None) "images/photo.png" = Some src /\
               existsSync photoTree src = true) /\
  exists c, "assets/images/photo-5d41402a.png" =
    replace_backslashes (path_relative "/p/dist/client"
      (hashed_target fixed_md5_hex "/p/dist/client/assets" "images/photo.png" c)).
Proof.
  assert (H1 : snd (processMissingAssets fixed_md5_hex "/p/dist/client" "/p/dist/client/assets"
                      (findUnreferencedAssets json_parse "src" (siteBaseUrl repoAssetConfig) photoTree
                         [photoDoc] None)
                      reconcilerFS emptyMapping) !! "images/photo.png" =
               Some "assets/images/photo-5d41402a.png") by (vm_compute; reflexivity).
  assert (H2 : emptyMapping !! "images/photo.png" <> Some "assets/images/photo-5d41402a.png")
    by (vm_compute; discriminate).
  split; [exact H1|]. split; [exact H2|].
  exact (reconciled_scanned_sources _ _ _ _ _ _ _ _ _ _ _ _ H1 H2).
Defined.

(** ** [processManifestUrls] *)

(** The changed flag is set exactly when the walked value differs from
    the input value. *)
Theorem processManifestUrls_flag (cfg : AssetConfig) (m : AssetMappings) (j : json) :
  fst (processManifestUrls cfg m j) = true <-> snd (processManifestUrls cfg m j) <> j.
Proof.
  destruct (processManifestUrls_changed cfg m j) as [H1 H2]. split; [exact H1|].
  intros Hne. destruct (fst (processManifestUrls cfg m j)) eqn:E; [reflexivity|].
  exfalso. exact (Hne (H2 eq_refl)).
Qed.

(** ** [updateUrl] on inherited names *)

(** A URL ["/" + k] whose key [k] has no own entry but names a member of
    [Object.prototype] (such as [constructor]) is rewritten to ["/"]
    followed by that member's string form. *)
Theorem updateUrl_prototype_key (cfg : AssetConfig) (m : AssetMappings) (k r : string) :
  m !! k = None -> object_prototype_member k = Some r ->
  startsWith ("/" ++ k) (siteBaseUrl cfg) = false ->
  updateUrl ("/" ++ k) cfg m = "/" ++ r.
Proof.
  intros Hm Hp Hb. unfold updateUrl, urlAssetPath. rewrite Hb.
  change (stripLeadingSlashes ("/" ++ k)) with (stripLeadingSlashes k).
  rewrite (prototype_member_no_slash k r Hp). unfold js_get. rewrite Hm, Hp. reflexivity.
Qed.

Lemma updateUrl_prototype_key_witness :
  emptyMapping !! "constructor" = None /\
  object_prototype_member "constructor" = Some "function Object() { [native code] }" /\
  startsWith ("/" ++ "constructor") (siteBaseUrl repoAssetConfig) = false /\
  updateUrl ("/" ++ "constructor") repoAssetConfig emptyMapping =
    "/" ++ "function Object() { [native code] }".
Proof.
  assert (H1 : emptyMapping !! "constructor" = None) by (vm_compute; reflexivity).
  assert (H2 : object_prototype_member "constructor" = Some "function Object() { [native code] }")
    by reflexivity.
  assert (H3 : startsWith ("/" ++ "constructor") (siteBaseUrl repoAssetConfig) = false) by reflexivity.
  split; [exact H1|]. split; [exact H2|]. split; [exact H3|].
  exact (updateUrl_prototype_key _ _ _ _ H1 H2 H3).
Defined.

(** ** [fixMimeType] *)

(** One call removes only one duplicated top-level type: a type with the
    prefix repeated three times needs two calls, so [fixMimeType] is not
    idempotent. *)
Theorem fixMimeType_one_level (t1 t2 t3 rest : string) :
  In t1 mime_top_types -> In t2 mime_top_types -> In t3 mime_top_types ->
  fixMimeType (t1 ++ "/" ++ t2 ++ "/" ++ t3 ++ "/" ++ rest) = t1 ++ "/" ++ t3 ++ "/" ++ rest /\
  fixMimeType (fixMimeType (t1 ++ "/" ++ t2 ++ "/" ++ t3 ++ "/" ++ rest)) = t1 ++ "/" ++ rest.
Proof.
  intros H1 H2 H3.
  rewrite (fixMimeType_duplicated t1 t2 (t3 ++ "/" ++ rest) H1 H2).
  split; [reflexivity|]. exact (fixMimeType_duplicated t1 t3 rest H1 H3).
Qed.

Lemma fixMimeType_one_level_witness :
  In "image" mime_top_types /\
  fixMimeType ("image" ++ "/" ++ "image" ++ "/" ++ "image" ++ "/" ++ "png") =
    "image" ++ "/" ++ "image" ++ "/" ++ "png" /\
  fixMimeType (fixMimeType ("image" ++ "/" ++ "image" ++ "/" ++ "image" ++ "/" ++ "png")) =
    "image" ++ "/" ++ "png".
Proof.
  assert (H : In "image" mime_top_types) by (left; reflexivity).
  split; [exact H|]. exact (fixMimeType_one_level _ _ _ _ H H H).
Defined.
